(** * PredictionLoader: a shallow embedding of [evaluation/prediction_loader.py]

    The loader reads a CSV file of model predictions and turns every data
    row into a [PredictionResult].  The embedding keeps the shape of the
    Python code:

    - a [str] is a [string]; every character stands for one code point
      below 256, and [py_strip] / [py_lower] follow [str.strip] and
      [str.lower] on that range;
    - a dict is a [gmap], the dedup-log attribute is a [gset];
    - [self._logged_unexpected_values] and the logger are threaded through
      an explicit state, and a raised exception keeps the state reached
      when it was raised;
    - the collaborators that live in other modules ([ANNOTATION_CATEGORIES],
      [GroundTruthLoader._convert_value], [normalize_video_id]) and the file
      system are parameters of the development. *)

From Stdlib Require Import String Ascii ZArith QArith.QArith_base.
From stdpp Require Import gmap strings list fin_maps pretty.

Local Open Scope string_scope.
Local Open Scope list_scope.
Local Open Scope Z_scope.

(** ** Python strings *)

Module PyStr.

(** [str.isspace] on one character, for code points below 256. *)
Definition is_space (c : ascii) : bool :=
  let n := nat_of_ascii c in
  ((9 <=? n)%nat && (n <=? 13)%nat)
  || ((28 <=? n)%nat && (n <=? 32)%nat)
  || (n =? 133)%nat || (n =? 160)%nat.

Fixpoint lstrip (s : string) : string :=
  match s with
  | EmptyString => EmptyString
  | String c s' => if is_space c then lstrip s' else s
  end.

Fixpoint rstrip (s : string) : string :=
  match s with
  | EmptyString => EmptyString
  | String c s' =>
      match rstrip s' with
      | EmptyString => if is_space c then EmptyString else String c EmptyString
      | t => String c t
      end
  end.

(** [s.strip()] *)
Definition py_strip (s : string) : string := rstrip (lstrip s).

(** [str.lower] on one character, for code points below 256. *)
Definition lower_char (c : ascii) : ascii :=
  let n := nat_of_ascii c in
  if ((65 <=? n)%nat && (n <=? 90)%nat)
     || ((192 <=? n)%nat && (n <=? 222)%nat && negb (n =? 215)%nat)
  then ascii_of_nat (n + 32) else c.

(** [s.lower()] *)
Fixpoint py_lower (s : string) : string :=
  match s with
  | EmptyString => EmptyString
  | String c s' => String (lower_char c) (py_lower s')
  end.

(** [s.startswith(p)] *)
Definition startswith (s p : string) : bool := String.prefix p s.

(** [s.endswith(p)] *)
Definition endswith (s p : string) : bool :=
  (String.length p <=? String.length s)%nat
  && String.eqb (substring (String.length s - String.length p) (String.length p) s) p.

(** [p in s] for two strings. *)
Fixpoint contains (p s : string) : bool :=
  String.prefix p s
  || match s with
     | EmptyString => false
     | String _ s' => contains p s'
     end.

(** [s[start:-stop]] for [start, stop >= 0]: empty when the two ends cross. *)
Definition slice (start stop : nat) (s : string) : string :=
  substring start (String.length s - stop - start) s.

(** [bool(s)] *)
Definition truthy (s : string) : bool := negb (String.eqb s "").

(** [str(b)] for a bool, as an f-string prints it. *)
Definition str_bool (b : bool) : string := if b then "True" else "False".

(** [str(n)] for a non-negative int. *)
Definition str_nat (n : nat) : string := pretty n.

End PyStr.
Import PyStr.

(** ** Exceptions, log records and the loader's state *)

(** The exceptions that occur; all of them are subclasses of Python's
    [Exception], so [except Exception] catches each one. *)
Inductive PyExc : Type :=
| AttributeError (msg : string)
| FileNotFoundError (msg : string)
| IsADirectoryError (msg : string)
| UnicodeDecodeError (msg : string)
| CsvError (msg : string)
| Exception (msg : string).

(** [str(e)] *)
Definition str_exc (e : PyExc) : string :=
  match e with
  | AttributeError msg | FileNotFoundError msg | IsADirectoryError msg
  | UnicodeDecodeError msg | CsvError msg | Exception msg => msg
  end.

Inductive Res (A : Type) : Type :=
| Ok (a : A)
| Raise (e : PyExc).
Arguments Ok {A} a.
Arguments Raise {A} e.

Definition res_map {A B} (f : A -> B) (r : Res A) : Res B :=
  match r with
  | Ok a => Ok (f a)
  | Raise e => Raise e
  end.

Inductive Level : Type := INFO | WARNING.

(** One call of [self.logger.info] or [self.logger.warning]; [message]
    renders the f-string of the call. *)
Inductive LogRecord : Type :=
| DetectedFormat (is_tiktok_format has_value_columns : bool)
| BuiltColumnMapping (n : nat)
| ColumnCaseMismatch (category expected_col actual_col : string)
| NoColumnFound (category : string)
| UnexpectedValue (value_str category : string) (row_num : nat)
| ParseErrors (n : nat)
| ParseErrorLine (error : string)
| Loaded (n : nat) (csv_path : string).

Definition level (r : LogRecord) : Level :=
  match r with
  | DetectedFormat _ _ | BuiltColumnMapping _ | Loaded _ _ => INFO
  | _ => WARNING
  end.

Definition message (r : LogRecord) : string :=
  match r with
  | DetectedFormat t v =>
      "Detected format: TikTok=" +:+ str_bool t +:+ ", ValueColumns=" +:+ str_bool v
  | BuiltColumnMapping n =>
      "Built column mapping for " +:+ str_nat n +:+ " categories"
  | ColumnCaseMismatch category expected_col actual_col =>
      "Column case mismatch for '" +:+ category +:+ "': expected '" +:+ expected_col
      +:+ "', found '" +:+ actual_col +:+ "'"
  | NoColumnFound category =>
      "No column found for category '" +:+ category +:+ "'"
  | UnexpectedValue value_str category row_num =>
      "Unexpected value '" +:+ value_str +:+ "' for category '" +:+ category
      +:+ "' in row " +:+ str_nat row_num
      +:+ ". Expected: '', 'absent', 'conflict', 'present', 'dominant', or numeric -1, 0, 1, 2"
  | ParseErrors n => "Parse errors: " +:+ str_nat n
  | ParseErrorLine error => "  " +:+ error
  | Loaded n csv_path =>
      "Loaded " +:+ str_nat n +:+ " predictions from " +:+ csv_path
  end.

(** The mutable part of a [PredictionLoader]: the dedup-log attribute
    ([None] while the attribute has not been assigned yet) and what the
    logger has received so far, oldest first. *)
Record LoaderState : Type := {
  _logged_unexpected_values : option (gset (string * string));
  logger : list LogRecord;
}.

(** ** Rows, files and results *)

(** A row as [csv.DictReader] yields it: a short line leaves its last
    fields at [None]; a long line stores the surplus under the key [None]. *)
Record RawRow : Type := {
  fields : gmap string (option string);
  restkey : option (list string);
}.

(** [key in row] *)
Definition in_row (key : option string) (row : RawRow) : bool :=
  match key with
  | Some k => bool_decide (is_Some (fields row !! k))
  | None => bool_decide (is_Some (restkey row))
  end.

(** [row.get(key, default)] for a string key. *)
Definition row_get (row : RawRow) (key default : string) : option string :=
  match fields row !! key with
  | Some v => v
  | None => Some default
  end.

(** [v.strip()] where [v] is a [str] or [None]. *)
Definition strip_method (v : option string) : Res string :=
  match v with
  | Some s => Ok (py_strip s)
  | None => Raise (AttributeError "'NoneType' object has no attribute 'strip'")
  end.

(** What [csv.DictReader] makes of a readable file. *)
Record CsvFile : Type := {
  fieldnames : option (list string);
  data_rows : list RawRow;
}.

(** How reading an existing path fails.  [open] raises (a directory, a
    file that may not be read), or the first read, which fetches the
    header, raises (bytes in the first buffer that are not UTF-8): in both
    cases nothing of the file has been seen.  Or the reader yields a
    header and some rows and raises when asked for the next row (a field
    over the size limit of the [csv] module, bytes further on in the file
    that are not UTF-8). *)
Inductive ReadFailure : Type :=
| OpenFails (e : PyExc)
| ReaderFails (f : CsvFile) (e : PyExc).

(** The exception that the failure raises. *)
Definition failure_error (failure : ReadFailure) : PyExc :=
  match failure with
  | OpenFails e | ReaderFails _ e => e
  end.

Module PredictionResult.
Record t : Type := {
  video_id : string;
  predictions : gmap string Z;
  success : bool;
  error_message : option string;
  inference_time : Q;
}.
End PredictionResult.

Module PredictionSet.
Record t : Type := {
  model_name : string;
  predictions : list PredictionResult.t;
  total_count : nat;
  success_count : nat;
  failure_count : nat;
  failed_video_ids : list string;
}.
End PredictionSet.

(** ** The loader monad: state passing with exceptions *)

Definition M (A : Type) : Type := LoaderState -> Res A * LoaderState.

Definition ret {A} (a : A) : M A := fun st => (Ok a, st).

Definition bind {A B} (m : M A) (k : A -> M B) : M B :=
  fun st =>
    match m st with
    | (Ok a, st') => k a st'
    | (Raise e, st') => (Raise e, st')
    end.

Definition raise {A} (e : PyExc) : M A := fun st => (Raise e, st).

(** A pure computation that may raise. *)
Definition lift {A} (r : Res A) : M A := fun st => (r, st).

(** [self.logger.info(...)] / [self.logger.warning(...)] *)
Definition log (r : LogRecord) : M unit :=
  fun st =>
    (Ok tt, {| _logged_unexpected_values := _logged_unexpected_values st;
               logger := logger st ++ [r] |}).

Declare Scope loader_scope.
Delimit Scope loader_scope with loader.
Notation "x <- m ;; k" := (bind m (fun x => k))
  (at level 100, m at next level, right associativity) : loader_scope.
Notation "m ;;; k" := (bind m (fun _ => k))
  (at level 100, right associativity) : loader_scope.
Local Open Scope loader_scope.

(** [try: body except Exception as e: handler(e)] *)
Definition try_except {A} (body : M A) (handler : PyExc -> M A) : M A :=
  fun st =>
    match body st with
    | (Ok a, st') => (Ok a, st')
    | (Raise e, st') => handler e st'
    end.

(** [for r in records: self.logger.warning(r)] *)
Fixpoint log_each (records : list LogRecord) : M unit :=
  match records with
  | [] => ret tt
  | r :: rest => log r ;;; log_each rest
  end.

(** ** class PredictionLoader *)

Module PredictionLoader.

(** The class attribute [COLUMN_MAPPING], in the order of the dict literal. *)
Definition COLUMN_MAPPING : list (string * string) :=
  [ ("1_Value1_Self_Direction_Thought_values", "Self_Direction_Thought");
    ("1_Value1_Self_Direction_Action_values", "Self_Direction_Action");
    ("1_Value1_Stimulation_values", "Stimulation");
    ("1_Value1_Hedonism_values", "Hedonism");
    ("1_Value1_Achievement_values", "Achievement");
    ("1_Value1_Power_Resources_values", "Power_Resources");
    ("1_Value1_Power_dominance_values", "Power_Dominance");
    ("1_Value1_Face_values", "Face");
    ("1_Value1_Security_Personal_values", "Security_Personal");
    ("1_Value1_Security_Social_values", "Security_Social");
    ("1_Value1_Conformity_Rules_values", "Conformity_Rules");
    ("1_Value1_Conformity_Interpersonal_values", "Conformity_Interpersonal");
    ("1_Value1_Tradition_values", "Tradition");
    ("1_Value1_Humility_values", "Humility");
    ("1_Value1_Benevolence_Dependability_values", "Benevolence_Dependability");
    ("1_Value1_Benevolence_Care_values", "Benevolence_Care");
    ("1_Value1_Universalism_Concern_values", "Universalism_Concern");
    ("1_Value1_Universalism_Nature_values", "Universalism_Nature");
    ("1_Value1_Universalism_Tolerance_values", "Universalism_Tolerance") ].

(** The reverse lookup of [_parse_row]:
    [for col, cat in items: if cat == category: csv_col = col; break]. *)
Fixpoint find_csv_col (items : list (string * string)) (category : string)
  : option string :=
  match items with
  | [] => None
  | (col, cat) :: rest =>
      if String.eqb cat category then Some col else find_csv_col rest category
  end.

(** [f'1_Value1_{category}_values'] *)
Definition expected_col (category : string) : string :=
  "1_Value1_" +:+ category +:+ "_values".

(** Body of the first loop of [_build_column_mapping]. *)
Definition register_column (column_mapping : gmap string string) (col : string)
  : gmap string string :=
  if startswith col "1_Value1_" && endswith col "_values"
  then <[py_lower (slice 9 7 col) := col]> column_mapping
  else column_mapping.

(** Body of the second loop of [_build_column_mapping]. *)
Definition log_case_mismatch (columns : list string)
    (column_mapping : gmap string string) (category : string) : M unit :=
  if bool_decide (expected_col category ∈ columns) then ret tt
  else
    match column_mapping !! py_lower category with
    | Some actual_col =>
        log (ColumnCaseMismatch category (expected_col category) actual_col)
    | None => log (NoColumnFound category)
    end.

Fixpoint log_case_mismatches (columns : list string)
    (column_mapping : gmap string string) (categories : list string) : M unit :=
  match categories with
  | [] => ret tt
  | category :: rest =>
      log_case_mismatch columns column_mapping category ;;;
      log_case_mismatches columns column_mapping rest
  end.

Section Methods.

(** [evaluation.ground_truth_loader.ANNOTATION_CATEGORIES] *)
Variable ANNOTATION_CATEGORIES : list string.

(** [GroundTruthLoader._convert_value]: a numeric code, or [None] for a
    text it does not recognize. *)
Variable GroundTruthLoader_convert_value : string -> option Z.

(** [evaluation.video_id_utils.normalize_video_id]: a canonical
    identifier, possibly empty; it may raise on what it is given. *)
Variable normalize_video_id : option string -> Res string.

(** The file system: the file found at a path, when the path holds a file
    that opens and that the CSV reader reads to its end. *)
Variable filesystem : string -> option CsvFile.

(** The file system, continued: how reading fails at a path that exists
    but holds no such file.  A path exists when either of the two maps
    has it. *)
Variable unreadable : string -> option ReadFailure.

(** [self.model_name] *)
Variable self_model_name : string.

Definition _build_column_mapping (columns : list string)
  : M (gmap string string) :=
  let column_mapping := foldl register_column ∅ columns in
  log_case_mismatches columns column_mapping ANNOTATION_CATEGORIES ;;;
  ret column_mapping.

Definition _extract_video_id (filename : option string) : Res (option string) :=
  match normalize_video_id filename with
  | Ok s => Ok (if truthy s then Some s else filename)
  | Raise e => Raise e
  end.

Definition _convert_value (value_str : option string) (category : string)
    (row_num : nat) : M Z :=
  match value_str with
  | None => ret 0
  | Some value_str =>
      let result := GroundTruthLoader_convert_value value_str in
      (if bool_decide (result = None) && truthy value_str then
         fun st =>
           match _logged_unexpected_values st with
           | None =>
               (Raise (AttributeError
                  "'PredictionLoader' object has no attribute '_logged_unexpected_values'"),
                st)
           | Some logged =>
               if bool_decide ((category, value_str) ∈ logged) then (Ok tt, st)
               else
                 (Ok tt,
                  {| _logged_unexpected_values :=
                       Some ({[ (category, value_str) ]} ∪ logged);
                     logger :=
                       logger st ++ [UnexpectedValue value_str category row_num] |})
           end
       else ret tt) ;;;
      ret (default 0 result)
  end.

(** The text read for one category in the value-columns layout. *)
Definition value_columns_cell (column_mapping : gmap string string)
    (row : RawRow) (category : string) : Res string :=
  let csv_col := find_csv_col COLUMN_MAPPING category in
  let first :=
    match csv_col with
    | Some col => if truthy col then strip_method (row_get row col "") else Ok ""
    | None => Ok ""
    end in
  match first with
  | Raise e => Raise e
  | Ok value_str =>
      if negb (truthy value_str) && negb (in_row csv_col row) then
        match column_mapping !! py_lower category with
        | Some actual_col => strip_method (row_get row actual_col "")
        | None => Ok value_str
        end
      else Ok value_str
  end.

(** The text read for one category in the standard layout. *)
Definition standard_cell (row : RawRow) (category : string) : Res string :=
  strip_method (row_get row category "").

(** [for category in ANNOTATION_CATEGORIES: ... annotations[category] = numeric_value] *)
Fixpoint annotate (cell : string -> Res string) (row_num : nat)
    (categories : list string) (annotations : gmap string Z)
  : M (gmap string Z) :=
  match categories with
  | [] => ret annotations
  | category :: rest =>
      value_str <- lift (cell category) ;;
      numeric_value <- _convert_value (Some value_str) category row_num ;;
      annotate cell row_num rest (<[category := numeric_value]> annotations)
  end.

(** The [if]/[elif] chain that opens [_parse_row]: the value assigned to
    [video_id], or [None] when the chain ends in [else: return None]. *)
Definition video_id_of_row (row : RawRow) : option (Res (option string)) :=
  match fields row !! "filename" with
  | Some filename => Some (_extract_video_id filename)
  | None =>
      match fields row !! "1_Link1" with
      | Some link => Some (res_map Some (normalize_video_id link))
      | None =>
          match fields row !! "video_id" with
          | Some v => Some (res_map Some (strip_method v))
          | None => None
          end
      end
  end.

(** [bool(video_id)] for a [str] or [None]. *)
Definition truthy_id (video_id : option string) : bool :=
  match video_id with
  | Some s => truthy s
  | None => false
  end.

Definition _parse_row (row : RawRow) (is_tiktok_format has_value_columns : bool)
    (column_mapping : gmap string string) (row_num : nat)
  : M (option PredictionResult.t) :=
  match video_id_of_row row with
  | None => ret None
  | Some extracted =>
      video_id <- lift extracted ;;
      if negb (truthy_id video_id) then ret None
      else
        annotations <-
          (if has_value_columns
           then annotate (value_columns_cell column_mapping row) row_num
                  ANNOTATION_CATEGORIES ∅
           else annotate (standard_cell row) row_num ANNOTATION_CATEGORIES ∅) ;;
        ret (Some {| PredictionResult.video_id := default "" video_id;
                     PredictionResult.predictions := annotations;
                     PredictionResult.success := true;
                     PredictionResult.error_message := None;
                     PredictionResult.inference_time := 0%Q |})
  end.

(** [f"Row {row_num}: {e}"] *)
Definition parse_error (row_num : nat) (e : PyExc) : string :=
  "Row " +:+ str_nat row_num +:+ ": " +:+ str_exc e.

(** [for row_num, row in enumerate(reader, start=...)] with its [try]. *)
Fixpoint load_rows (is_tiktok_format has_value_columns : bool)
    (column_mapping : gmap string string) (row_num : nat) (rows : list RawRow)
    (predictions : list PredictionResult.t) (parse_errors : list string)
  : M (list PredictionResult.t * list string) :=
  match rows with
  | [] => ret (predictions, parse_errors)
  | row :: rows' =>
      acc <- try_except
               (pred <- _parse_row row is_tiktok_format has_value_columns
                          column_mapping row_num ;;
                ret (match pred with
                     | Some pred => predictions ++ [pred]
                     | None => predictions
                     end, parse_errors))
               (fun e => ret (predictions, parse_errors ++ [parse_error row_num e])) ;;
      load_rows is_tiktok_format has_value_columns column_mapping (S row_num) rows'
        acc.1 acc.2
  end.

(** [if parse_errors: ...]: the count, then the first five. *)
Definition report_parse_errors (parse_errors : list string) : M unit :=
  match parse_errors with
  | [] => ret tt
  | _ =>
      log (ParseErrors (length parse_errors)) ;;;
      log_each (ParseErrorLine <$> take 5 parse_errors)
  end.

(** [self._logged_unexpected_values = set()] *)
Definition reset_logged_unexpected_values : M unit :=
  fun st => (Ok tt, {| _logged_unexpected_values := Some ∅; logger := logger st |}).

(** The body of [load] from the header on: the reader yields the header
    and the data rows of [f]; with [reader_error = Some e] it raises [e]
    when asked for the row after the last one, which ends the load. *)
Definition read_csv (csv_path : string) (f : CsvFile) (reader_error : option PyExc)
  : M PredictionSet.t :=
  let columns := default [] (fieldnames f) in
  let is_tiktok_format :=
    existsb (fun col => bool_decide (col ∈ columns)) ["filename"; "1_Link1"] in
  let has_value_columns := existsb (contains "_values") columns in
  log (DetectedFormat is_tiktok_format has_value_columns) ;;;
  column_mapping <- _build_column_mapping columns ;;
  log (BuiltColumnMapping (size column_mapping)) ;;;
  acc <- load_rows is_tiktok_format has_value_columns column_mapping 2
           (data_rows f) [] [] ;;
  match reader_error with
  | Some e => raise e
  | None =>
      report_parse_errors acc.2 ;;;
      log (Loaded (length acc.1) csv_path) ;;;
      ret {| PredictionSet.model_name := self_model_name;
             PredictionSet.predictions := acc.1;
             PredictionSet.total_count := length acc.1;
             PredictionSet.success_count := length acc.1;
             PredictionSet.failure_count := 0;
             PredictionSet.failed_video_ids := [] |}
  end.

Definition load (csv_path : string) : M PredictionSet.t :=
  match filesystem csv_path with
  | Some f => reset_logged_unexpected_values ;;; read_csv csv_path f None
  | None =>
      match unreadable csv_path with
      | None =>
          raise (FileNotFoundError ("Predictions file not found: " +:+ csv_path))
      | Some (OpenFails e) => reset_logged_unexpected_values ;;; raise e
      | Some (ReaderFails f e) =>
          reset_logged_unexpected_values ;;; read_csv csv_path f (Some e)
      end
  end.

End Methods.

End PredictionLoader.

(** ** Sample collaborators and files

    Concrete stand-ins for the parameters, used to run the loader on
    concrete files. *)

Module Sample.

(** A canonical category list: the names that [COLUMN_MAPPING] maps to. *)
Definition ANNOTATION_CATEGORIES : list string :=
  PredictionLoader.COLUMN_MAPPING.*2.

(** A Value Normalizer: it recognizes the tokens absent, conflict, present
    and dominant (case-insensitive), the numerals -1, 0, 1 and 2 and the
    empty text, and signals everything else as unrecognized. *)
Definition convert_value (value_str : string) : option Z :=
  let v := py_lower value_str in
  if String.eqb v "" then Some 0
  else if String.eqb v "absent" then Some 0
  else if String.eqb v "conflict" then Some (-1)
  else if String.eqb v "present" then Some 1
  else if String.eqb v "dominant" then Some 2
  else if String.eqb v "-1" then Some (-1)
  else if String.eqb v "0" then Some 0
  else if String.eqb v "1" then Some 1
  else if String.eqb v "2" then Some 2
  else None.

(** A Video ID Resolver: it trims the field, and raises on a field that is
    not text. *)
Definition normalize_video_id (raw : option string) : Res string :=
  match raw with
  | Some s => Ok (py_strip s)
  | None => Raise (Exception "expected string or bytes-like object")
  end.

Definition row (cells : list (string * option string)) : RawRow :=
  {| fields := list_to_map cells; restkey := None |}.

(** A three-row file in the standard layout. *)
Definition standard_file : CsvFile :=
  {| fieldnames := Some ["video_id"; "Hedonism"; "Face"];
     data_rows :=
       [ row [("video_id", Some "v1"); ("Hedonism", Some "present"); ("Face", Some "")];
         row [("video_id", Some "v2"); ("Hedonism", Some ""); ("Face", Some "dominant")];
         row [("video_id", Some "v3"); ("Hedonism", Some "bogus"); ("Face", Some "absent")] ] |}.

(** A standard-layout file whose second line is short: its [Face] field
    is [None]. *)
Definition short_row_file : CsvFile :=
  {| fieldnames := Some ["video_id"; "Hedonism"; "Face"];
     data_rows :=
       [ row [("video_id", Some "v1"); ("Hedonism", Some "present"); ("Face", Some "")];
         row [("video_id", Some "v2"); ("Hedonism", Some "maybe"); ("Face", None)];
         row [("video_id", Some "v3"); ("Hedonism", Some "maybe"); ("Face", Some "dominant")] ] |}.

(** A value-columns file in the linked format, with the lowercase-d header. *)
Definition tiktok_file : CsvFile :=
  {| fieldnames := Some ["filename"; "1_Value1_Hedonism_values";
                         "1_Value1_Power_dominance_values"; "1_Value1_FACE_values"];
     data_rows :=
       [ row [("filename", Some "@alexkay_video_678");
              ("1_Value1_Hedonism_values", Some " present ");
              ("1_Value1_Power_dominance_values", Some "dominant");
              ("1_Value1_FACE_values", Some "present")];
         row [("filename", Some "  ");
              ("1_Value1_Hedonism_values", Some "present");
              ("1_Value1_Power_dominance_values", Some "");
              ("1_Value1_FACE_values", Some "")] ] |}.

Definition filesystem (path : string) : option CsvFile :=
  if String.eqb path "standard.csv" then Some standard_file
  else if String.eqb path "short.csv" then Some short_row_file
  else if String.eqb path "tiktok.csv" then Some tiktok_file
  else None.

(** A directory; a short file in Latin-1, on which the read of the header
    raises; and a file whose second data line has a field over the size
    limit of the [csv] module. *)
Definition unreadable (path : string) : option ReadFailure :=
  if String.eqb path "reports" then
    Some (OpenFails (IsADirectoryError "[Errno 21] Is a directory: 'reports'"))
  else if String.eqb path "latin1.csv" then
    Some (OpenFails
            (UnicodeDecodeError
               "'utf-8' codec can't decode byte 0xe9 in position 38: invalid continuation byte"))
  else if String.eqb path "longfield.csv" then
    Some (ReaderFails
            {| fieldnames := Some ["video_id"; "Hedonism"];
               data_rows := [row [("video_id", Some "v1"); ("Hedonism", Some "maybe")]] |}
            (CsvError "field larger than field limit (131072)"))
  else None.

Definition fresh : LoaderState :=
  {| _logged_unexpected_values := None; logger := [] |}.

Definition load (csv_path : string) : M PredictionSet.t :=
  PredictionLoader.load ANNOTATION_CATEGORIES convert_value normalize_video_id
    filesystem unreadable "model" csv_path.

End Sample.

(** * Observations

    The vocabulary in which the properties of the loader are stated. *)

Section Observations.

Variable ANNOTATION_CATEGORIES : list string.
Variable GroundTruthLoader_convert_value : string -> option Z.
Variable normalize_video_id : option string -> Res string.
Variable self_model_name : string.

(** The state after the logger has received [records]. *)
Definition append_log (st : LoaderState) (records : list LogRecord) : LoaderState :=
  {| _logged_unexpected_values := _logged_unexpected_values st;
     logger := logger st ++ records |}.

(** What the second loop of [_build_column_mapping] logs. *)
Definition case_mismatch_records (columns : list string)
    (column_mapping : gmap string string) (categories : list string)
  : list LogRecord :=
  flat_map
    (fun category =>
       if bool_decide (PredictionLoader.expected_col category ∈ columns) then []
       else match column_mapping !! py_lower category with
            | Some actual_col =>
                [ColumnCaseMismatch category (PredictionLoader.expected_col category)
                   actual_col]
            | None => [NoColumnFound category]
            end)
    categories.

(** What the report after the row loop logs. *)
Definition report_records (parse_errors : list string) : list LogRecord :=
  match parse_errors with
  | [] => []
  | _ => ParseErrors (length parse_errors) :: (ParseErrorLine <$> take 5 parse_errors)
  end.

(** The key under which the first loop of [_build_column_mapping] registers
    a header, if the header has the value-column shape. *)
Definition category_key (col : string) : option string :=
  if startswith col "1_Value1_" && endswith col "_values"
  then Some (py_lower (slice 9 7 col)) else None.

(** The last header registered under a key. *)
Fixpoint last_with_key (key : string) (columns : list string) : option string :=
  match columns with
  | [] => None
  | col :: rest =>
      match last_with_key key rest with
      | Some c => Some c
      | None => if decide (category_key col = Some key) then Some col else None
      end
  end.

(** The columns, the flags and the column map that [load] derives from a
    file. *)
Definition columns_of (f : CsvFile) : list string := default [] (fieldnames f).

Definition is_tiktok_format_of (f : CsvFile) : bool :=
  existsb (fun col => bool_decide (col ∈ columns_of f)) ["filename"; "1_Link1"].

Definition has_value_columns_of (f : CsvFile) : bool :=
  existsb (contains "_values") (columns_of f).

Definition column_mapping_of (f : CsvFile) : gmap string string :=
  foldl PredictionLoader.register_column ∅ (columns_of f).

(** The state in which the row loop of [load] starts. *)
Definition loop_start (f : CsvFile) (st : LoaderState) : LoaderState :=
  {| _logged_unexpected_values := Some ∅;
     logger :=
       logger st
       ++ DetectedFormat (is_tiktok_format_of f) (has_value_columns_of f)
          :: case_mismatch_records (columns_of f) (column_mapping_of f)
               ANNOTATION_CATEGORIES
       ++ [BuiltColumnMapping (size (column_mapping_of f))] |}.

(** The aggregate that [load] builds from the records it collected. *)
Definition prediction_set (preds : list PredictionResult.t) : PredictionSet.t :=
  {| PredictionSet.model_name := self_model_name;
     PredictionSet.predictions := preds;
     PredictionSet.total_count := length preds;
     PredictionSet.success_count := length preds;
     PredictionSet.failure_count := 0;
     PredictionSet.failed_video_ids := [] |}.

(** The text that [_parse_row] reads for a category, by layout. *)
Definition read_cell (has_value_columns : bool) (cm : gmap string string)
    (row : RawRow) (category : string) : Res string :=
  if has_value_columns then PredictionLoader.value_columns_cell cm row category
  else PredictionLoader.standard_cell row category.

(** What a Prediction Record holds when it is the parse of [row]. *)
Definition record_of (has_value_columns : bool) (cm : gmap string string)
    (row : RawRow) (r : PredictionResult.t) : Prop :=
  PredictionLoader.video_id_of_row normalize_video_id row
    = Some (Ok (Some (PredictionResult.video_id r)))
  /\ PredictionResult.video_id r <> ""
  /\ dom (PredictionResult.predictions r) = list_to_set ANNOTATION_CATEGORIES
  /\ (forall c, c ∈ ANNOTATION_CATEGORIES ->
        exists text, read_cell has_value_columns cm row c = Ok text
          /\ PredictionResult.predictions r !! c
             = Some (default 0 (GroundTruthLoader_convert_value text)))
  /\ PredictionResult.success r = true
  /\ PredictionResult.error_message r = None
  /\ PredictionResult.inference_time r = 0%Q.

(** No column of the row holds the category: in the standard layout the
    row has no field of that name; in the value-columns layout it has
    neither the column that [COLUMN_MAPPING] names nor the one the Column
    Map resolved. *)
Definition no_column (has_value_columns : bool) (cm : gmap string string)
    (row : RawRow) (category : string) : Prop :=
  if has_value_columns then
    in_row (PredictionLoader.find_csv_col PredictionLoader.COLUMN_MAPPING category) row
      = false
    /\ match cm !! py_lower category with
       | Some actual_col => fields row !! actual_col = None
       | None => True
       end
  else fields row !! category = None.

(** The row has a recognized identifier and it is not empty. *)
Definition has_identifier (row : RawRow) : bool :=
  match PredictionLoader.video_id_of_row normalize_video_id row with
  | Some (Ok (Some video_id)) => truthy video_id
  | _ => false
  end.

(** Every field of the row holds text: no field was left at [None] by a
    short line. *)
Definition cells_are_text (row : RawRow) : Prop :=
  map_Forall (fun _ (v : option string) => is_Some v) (fields row).

(** The header of the file that a category resolves to, if any. *)
Definition category_column (f : CsvFile) (category : string) : option string :=
  if has_value_columns_of f then
    match PredictionLoader.find_csv_col PredictionLoader.COLUMN_MAPPING category with
    | Some col =>
        if bool_decide (col ∈ columns_of f) then Some col
        else column_mapping_of f !! py_lower category
    | None => column_mapping_of f !! py_lower category
    end
  else if bool_decide (category ∈ columns_of f) then Some category else None.

(** A field of a row, trimmed when it holds text. *)
Definition trim_field (v : option string) : option string := py_strip <$> v.

(** Two rows with the same keys whose fields agree once trimmed. *)
Definition same_up_to_whitespace (row1 row2 : RawRow) : Prop :=
  trim_field <$> fields row1 = trim_field <$> fields row2
  /\ in_row None row1 = in_row None row2.

(** The (category, raw text) pairs that a stretch of the log warns about. *)
Definition unexpected_keys (records : list LogRecord) : list (string * string) :=
  omap (fun r => match r with
                 | UnexpectedValue value_str category _ => Some (category, value_str)
                 | _ => None
                 end) records.

(** From [st] to [st'] the log grew by warnings about pairs that were not
    in the dedup set, each pair once, and the set grew by those pairs. *)
Definition dedup_step (st st' : LoaderState) : Prop :=
  forall logged, _logged_unexpected_values st = Some logged ->
    exists new,
      logger st' = logger st ++ new
      /\ NoDup (unexpected_keys new)
      /\ (forall k, k ∈ unexpected_keys new -> k ∉ logged)
      /\ _logged_unexpected_values st'
         = Some (list_to_set (unexpected_keys new) ∪ logged).

(** The row is one that [_parse_row] skips: it has none of the identifier
    fields, or its identifier comes out empty. *)
Definition skipped (row : RawRow) : bool :=
  match PredictionLoader.video_id_of_row normalize_video_id row with
  | None => true
  | Some (Ok video_id) => negb (PredictionLoader.truthy_id video_id)
  | Some (Raise _) => false
  end.

(** The state [st] with the records [earlier] put in front of its log. *)
Definition prefix_log (earlier : list LogRecord) (st : LoaderState) : LoaderState :=
  {| _logged_unexpected_values := _logged_unexpected_values st;
     logger := earlier ++ logger st |}.

(** The computation [m] neither reads the log nor touches what is already
    in it: run after [earlier] records it behaves as without them. *)
Definition log_blind {A} (m : M A) : Prop :=
  forall earlier st, m (prefix_log earlier st) = ((m st).1, prefix_log earlier (m st).2).

(** A loader on which [load] has never run. *)
Definition never_loaded : LoaderState :=
  {| _logged_unexpected_values := None; logger := [] |}.


(** Every non-empty text of the row that the Value Normalizer does not
    recognize is, with its category, in the set [warned]. *)
Definition unrecognized_cells_in (has_value_columns : bool) (cm : gmap string string)
    (row : RawRow) (warned : gset (string * string)) : Prop :=
  forall c text,
    c ∈ ANNOTATION_CATEGORIES ->
    read_cell has_value_columns cm row c = Ok text ->
    GroundTruthLoader_convert_value text = None ->
    text <> "" ->
    (c, text) ∈ warned.


(** A warning about an unexpected value is justified by the rows of the
    file: the row it numbers (the first data row is row 2) reads, for the
    category it names, the text it quotes, and that text is non-empty and
    not recognized.  Other log records need no justification. *)
Definition warning_justified (has_value_columns : bool) (cm : gmap string string)
    (rows : list RawRow) (r : LogRecord) : Prop :=
  match r with
  | UnexpectedValue value_str category row_num =>
      exists row,
        (2 <= row_num)%nat
        /\ rows !! (row_num - 2)%nat = Some row
        /\ category ∈ ANNOTATION_CATEGORIES
        /\ read_cell has_value_columns cm row category = Ok value_str
        /\ GroundTruthLoader_convert_value value_str = None
        /\ value_str <> ""
  | _ => True
  end.


(** What [_parse_row] does once it holds the non-empty identifier
    [video_id]: it reads and converts the categories of the row, and
    returns the record that carries [video_id]. *)
Definition record_with_id (video_id : string) (row : RawRow)
    (has_value_columns : bool) (cm : gmap string string) (row_num : nat)
  : M (option PredictionResult.t) :=
  annotations <- PredictionLoader.annotate GroundTruthLoader_convert_value
                   (read_cell has_value_columns cm row) row_num
                   ANNOTATION_CATEGORIES ∅ ;;
  ret (Some {| PredictionResult.video_id := video_id;
               PredictionResult.predictions := annotations;
               PredictionResult.success := true;
               PredictionResult.error_message := None;
               PredictionResult.inference_time := 0%Q |}).


End Observations.

(** ** Runs on the sample files *)

Module SampleRuns.

(** What [load] returns on a sample file. *)
Definition loaded (csv_path : string) : PredictionSet.t :=
  match (Sample.load csv_path Sample.fresh).1 with
  | Ok ps => ps
  | Raise _ => prediction_set "model" []
  end.

(** The state in which [load] leaves a fresh loader. *)
Definition state_after (csv_path : string) : LoaderState :=
  (Sample.load csv_path Sample.fresh).2.

(** A row with none of the identifier fields. *)
Definition anonymous_row : RawRow :=
  Sample.row [("Hedonism", Some "present")].

(** Two rows that differ in surrounding whitespace only. *)
Definition padded_row : RawRow :=
  Sample.row [("video_id", Some "v1"); ("Hedonism", Some " present ")].

Definition trimmed_row : RawRow :=
  Sample.row [("video_id", Some "v1"); ("Hedonism", Some "present")].

(** The first record that [load] returns on a sample file. *)
Definition first_record (csv_path : string) : PredictionResult.t :=
  match PredictionSet.predictions (loaded csv_path) with
  | r :: _ => r
  | [] => {| PredictionResult.video_id := "";
             PredictionResult.predictions := ∅;
             PredictionResult.success := false;
             PredictionResult.error_message := None;
             PredictionResult.inference_time := 0%Q |}
  end.

(** The state in which the row loop starts on the sample files. *)
Definition loop_state : LoaderState :=
  {| _logged_unexpected_values := Some ∅; logger := [] |}.

(** The last record that [load] returns on a sample file. *)
Definition last_record (csv_path : string) : PredictionResult.t :=
  List.last (PredictionSet.predictions (loaded csv_path)) (first_record csv_path).

(** A file with nothing in it, and a file system that has it. *)
Definition empty_file : CsvFile := {| fieldnames := None; data_rows := [] |}.

Definition filesystem_with_empty (path : string) : option CsvFile :=
  if String.eqb path "empty.csv" then Some empty_file else Sample.filesystem path.

(** What [_build_column_mapping] does on the header of a sample file. *)
Definition built (f : CsvFile) : Res (gmap string string) * LoaderState :=
  PredictionLoader._build_column_mapping Sample.ANNOTATION_CATEGORIES (columns_of f)
    Sample.fresh.


(** Rows with several identifier fields, and a row whose filename is
    empty. *)
Definition all_ids_row : RawRow :=
  Sample.row [("filename", Some " alex_1 "); ("1_Link1", Some "clip_2");
              ("video_id", Some "v9"); ("Hedonism", Some "present")].

Definition link_row : RawRow :=
  Sample.row [("1_Link1", Some " clip_2 "); ("video_id", Some "v9")].

Definition plain_row : RawRow :=
  Sample.row [("video_id", Some " v7 "); ("Hedonism", Some "dominant")].

Definition empty_name_row : RawRow :=
  Sample.row [("filename", Some ""); ("1_Link1", Some "clip_2");
              ("video_id", Some "v9")].

(** The identifier of the record that [_parse_row] returns, if any. *)
Definition parsed_id (row : RawRow) : Res (option string) :=
  res_map (fmap PredictionResult.video_id)
    (PredictionLoader._parse_row Sample.ANNOTATION_CATEGORIES Sample.convert_value
       Sample.normalize_video_id row false false ∅ 2 loop_state).1.


(** [short.csv]: the state in which the row loop of [load] reaches the
    second row, and the state in which that row raises. *)
Definition short_second_row : RawRow :=
  Sample.row [("video_id", Some "v2"); ("Hedonism", Some "maybe"); ("Face", None)].

Definition short_before_state : LoaderState :=
  (PredictionLoader.load_rows Sample.ANNOTATION_CATEGORIES Sample.convert_value
     Sample.normalize_video_id false false ∅ 2 (take 1 (data_rows Sample.short_row_file))
     [] [] (loop_start Sample.ANNOTATION_CATEGORIES Sample.short_row_file Sample.fresh)).2.

Definition short_raise_state : LoaderState :=
  (PredictionLoader._parse_row Sample.ANNOTATION_CATEGORIES Sample.convert_value
     Sample.normalize_video_id short_second_row false false ∅ 3 short_before_state).2.


End SampleRuns.

(** * Properties *)

(** ** Python strings at work *)

Example strip_present : py_strip " present " = "present".
Proof. reflexivity. Qed.

Example lower_mixed : py_lower "Power_Dominance" = "power_dominance".
Proof. reflexivity. Qed.

Example slice_header : slice 9 7 "1_Value1_Power_dominance_values" = "Power_dominance".
Proof. reflexivity. Qed.

Example slice_crossing : slice 9 7 "1_Value1_values" = "".
Proof. reflexivity. Qed.

Example str_nat_12 : str_nat 12 = "12".
Proof. reflexivity. Qed.

Example contains_marker : contains "_values" "1_Value1_Face_values" = true.
Proof. reflexivity. Qed.

Example contains_no_marker : contains "_values" "video_id" = false.
Proof. reflexivity. Qed.

Example value_column_shape :
  startswith "1_Value1_Face_values" "1_Value1_" = true
  /\ endswith "1_Value1_Face_values" "_values" = true
  /\ endswith "values" "_values" = false.
Proof. repeat split. Qed.

(** ** How the monad runs *)

Lemma append_log_nil st : append_log st [] = st.
Proof. destruct st; unfold append_log; simpl. by rewrite app_nil_r. Qed.

Lemma append_log_app st l1 l2 :
  append_log (append_log st l1) l2 = append_log st (l1 ++ l2).
Proof. unfold append_log; simpl. by rewrite app_assoc. Qed.

Lemma log_run r st : log r st = (Ok tt, append_log st [r]).
Proof. reflexivity. Qed.

Lemma bind_ok {A B} (m : M A) (k : A -> M B) st a st' :
  m st = (Ok a, st') -> bind m k st = k a st'.
Proof. intros H. unfold bind. by rewrite H. Qed.

Lemma bind_raise {A B} (m : M A) (k : A -> M B) st e st' :
  m st = (Raise e, st') -> bind m k st = (Raise e, st').
Proof. intros H. unfold bind. by rewrite H. Qed.

Lemma bind_inv_ok {A B} (m : M A) (k : A -> M B) st b st2 :
  bind m k st = (Ok b, st2) ->
  exists a st1, m st = (Ok a, st1) /\ k a st1 = (Ok b, st2).
Proof.
  unfold bind. destruct (m st) as [[a|e] st1]; [eauto | discriminate].
Qed.

Lemma log_each_run records st : log_each records st = (Ok tt, append_log st records).
Proof.
  revert st. induction records as [|r rest IH]; intros st; simpl.
  - by rewrite append_log_nil.
  - rewrite (bind_ok _ _ _ _ _ (log_run r st)), IH, append_log_app. reflexivity.
Qed.

Lemma log_case_mismatches_run columns cm categories st :
  PredictionLoader.log_case_mismatches columns cm categories st
  = (Ok tt, append_log st (case_mismatch_records columns cm categories)).
Proof.
  revert st. induction categories as [|c rest IH]; intros st; simpl.
  - by rewrite append_log_nil.
  - unfold bind, PredictionLoader.log_case_mismatch.
    destruct (bool_decide (PredictionLoader.expected_col c ∈ columns)); simpl.
    + apply IH.
    + destruct (cm !! py_lower c); rewrite log_run, IH, append_log_app; reflexivity.
Qed.

Lemma report_parse_errors_run parse_errors st :
  PredictionLoader.report_parse_errors parse_errors st
  = (Ok tt, append_log st (report_records parse_errors)).
Proof.
  destruct parse_errors as [|e errs].
  - simpl. by rewrite append_log_nil.
  - unfold PredictionLoader.report_parse_errors, report_records.
    rewrite (bind_ok _ _ _ _ _ (log_run _ st)). cbv beta.
    rewrite log_each_run, append_log_app. reflexivity.
Qed.

(** ** Trimming *)

Lemma rstrip_head c s :
  rstrip (String c s) = EmptyString \/ exists t, rstrip (String c s) = String c t.
Proof.
  simpl. destruct (rstrip s); [|by eauto].
  destruct (is_space c); by eauto.
Qed.

Lemma rstrip_idempotent s : rstrip (rstrip s) = rstrip s.
Proof.
  induction s as [|c s IH]; [done|]. simpl.
  destruct (rstrip s) as [|d t] eqn:E.
  - destruct (is_space c) eqn:Hc; [done|]. simpl. by rewrite Hc.
  - change (rstrip (String c (String d t))) with
      (match rstrip (String d t) with
       | EmptyString => if is_space c then EmptyString else String c EmptyString
       | u => String c u
       end).
    by rewrite IH.
Qed.

Lemma lstrip_head s :
  lstrip s = EmptyString \/ exists c t, lstrip s = String c t /\ is_space c = false.
Proof.
  induction s as [|c s IH]; [by left|]. simpl.
  destruct (is_space c) eqn:Hc; [done|]. right. by exists c, s.
Qed.

(** Trimming a trimmed text changes nothing. *)
Lemma py_strip_idempotent s : py_strip (py_strip s) = py_strip s.
Proof.
  unfold py_strip. destruct (lstrip_head s) as [-> | (c & t & -> & Hc)]; [done|].
  assert (Hl : lstrip (rstrip (String c t)) = rstrip (String c t)).
  { destruct (rstrip_head c t) as [-> | [u Hu]]; [done|].
    rewrite Hu. simpl. by rewrite Hc. }
  by rewrite Hl, rstrip_idempotent.
Qed.

(** ** The column map *)

Lemma register_column_key cm col :
  PredictionLoader.register_column cm col
  = match category_key col with
    | Some key => <[key := col]> cm
    | None => cm
    end.
Proof.
  unfold PredictionLoader.register_column, category_key.
  by destruct (startswith col "1_Value1_" && endswith col "_values").
Qed.

Lemma foldl_register_lookup columns : forall cm key,
  foldl PredictionLoader.register_column cm columns !! key
  = match last_with_key key columns with
    | Some col => Some col
    | None => cm !! key
    end.
Proof.
  induction columns as [|col rest IH]; intros cm key; [done|].
  simpl. rewrite IH. destruct (last_with_key key rest); [done|].
  rewrite register_column_key.
  destruct (category_key col) as [k|] eqn:Hk.
  - destruct (decide (Some k = Some key)) as [[= ->]|Hne].
    + by rewrite lookup_insert_eq.
    + rewrite lookup_insert_ne; [done|]. congruence.
  - by destruct (decide (None = Some key)).
Qed.

Lemma last_with_key_Some key columns col :
  last_with_key key columns = Some col ->
  col ∈ columns /\ category_key col = Some key.
Proof.
  induction columns as [|c rest IH]; [done|]. simpl.
  destruct (last_with_key key rest) as [c'|].
  - intros [= ->]. destruct (IH eq_refl). split; [by apply list_elem_of_further | done].
  - destruct (decide (category_key c = Some key)); [|done].
    intros [= <-]. split; [apply list_elem_of_here | done].
Qed.

Lemma last_with_key_is_Some key columns col :
  col ∈ columns -> category_key col = Some key -> is_Some (last_with_key key columns).
Proof.
  induction columns as [|c rest IH]; intros Hin Hkey; [by apply elem_of_nil in Hin|].
  simpl. apply elem_of_cons in Hin as [->|Hin].
  - destruct (last_with_key key rest); [by eexists|].
    destruct (decide (category_key c = Some key)); [by eexists | done].
  - destruct (IH Hin Hkey) as [c' ->]. by eexists.
Qed.

Lemma case_mismatch_logged columns cm categories category actual_col :
  category ∈ categories ->
  PredictionLoader.expected_col category ∉ columns ->
  cm !! py_lower category = Some actual_col ->
  ColumnCaseMismatch category (PredictionLoader.expected_col category) actual_col
    ∈ case_mismatch_records columns cm categories.
Proof.
  intros Hin Habsent Hcm. unfold case_mismatch_records.
  apply list_elem_of_In, in_flat_map. exists category.
  split; [by apply list_elem_of_In|].
  rewrite bool_decide_eq_false_2 by done. rewrite Hcm. by left.
Qed.

(** ** Headers of the value-column shape *)

Lemma substring_app_exact s t : substring 0 (String.length s) (s +:+ t) = s.
Proof. induction s as [|c s IH]; simpl; [by destruct t | by rewrite IH]. Qed.

Lemma substring_skip s t m :
  substring (String.length s) m (s +:+ t) = substring 0 m t.
Proof. induction s as [|c s IH]; simpl; [done | exact IH]. Qed.

Lemma substring_all s : substring 0 (String.length s) s = s.
Proof. induction s as [|c s IH]; simpl; [done | by rewrite IH]. Qed.

Lemma string_length_app s t :
  String.length (s +:+ t) = (String.length s + String.length t)%nat.
Proof. induction s as [|c s IH]; simpl; [done | by rewrite IH]. Qed.

Lemma endswith_app s p : endswith (s +:+ p) p = true.
Proof.
  unfold endswith. rewrite string_length_app.
  replace (String.length s + String.length p - String.length p)%nat
    with (String.length s) by lia.
  rewrite substring_skip, substring_all, String.eqb_refl, andb_true_r.
  apply Nat.leb_le. lia.
Qed.

(** A text that ends with [p] contains [p]. *)
Lemma substring_contains p s n :
  substring n (String.length p) s = p -> contains p s = true.
Proof.
  assert (Hunfold : forall s, contains p s
            = String.prefix p s
              || match s with EmptyString => false | String _ s' => contains p s' end)
    by (by intros []).
  revert s. induction n as [|n IH]; intros s H.
  - apply prefix_correct in H. by rewrite Hunfold, H.
  - destruct s as [|c s]; simpl in H.
    + subst p. reflexivity.
    + rewrite Hunfold, (IH s H). apply orb_true_r.
Qed.

Lemma endswith_contains s p : endswith s p = true -> contains p s = true.
Proof.
  unfold endswith. intros H. apply andb_true_iff in H as [_ H].
  apply String.eqb_eq in H. by eapply substring_contains.
Qed.

(** The header expected for a category has the value-column shape, and the
    category part cut out of it is the category. *)
Lemma slice_expected_col category :
  slice 9 7 (PredictionLoader.expected_col category) = category.
Proof.
  unfold slice, PredictionLoader.expected_col.
  change (String.length ("1_Value1_" +:+ category +:+ "_values"))
    with (9 + String.length (category +:+ "_values"))%nat.
  rewrite string_length_app. simpl String.length.
  replace (9 + (String.length category + 7) - 7 - 9)%nat
    with (String.length category) by lia.
  change (substring 9 (String.length category) ("1_Value1_" +:+ category +:+ "_values"))
    with (substring 0 (String.length category) (category +:+ "_values")).
  apply substring_app_exact.
Qed.

Lemma category_key_expected_col category :
  category_key (PredictionLoader.expected_col category) = Some (py_lower category).
Proof.
  unfold category_key.
  assert (Hs : startswith (PredictionLoader.expected_col category) "1_Value1_" = true).
  { unfold startswith, PredictionLoader.expected_col. simpl.
    by destruct (category +:+ "_values"). }
  assert (He : endswith (PredictionLoader.expected_col category) "_values" = true).
  { unfold PredictionLoader.expected_col.
    change ("1_Value1_" +:+ category +:+ "_values")
      with (String.append ("1_Value1_" +:+ category) "_values") at 1.
    apply endswith_app. }
  by rewrite Hs, He, slice_expected_col.
Qed.

Lemma category_key_contains col key :
  category_key col = Some key -> contains "_values" col = true.
Proof.
  unfold category_key.
  destruct (startswith col "1_Value1_"); [|done].
  destruct (endswith col "_values") eqn:He; [|done].
  intros _. by apply endswith_contains.
Qed.


Lemma last_with_key_split key columns col :
  last_with_key key columns = Some col ->
  exists before after,
    columns = before ++ col :: after
    /\ category_key col = Some key
    /\ Forall (fun c => category_key c <> Some key) after.
Proof.
  induction columns as [|c rest IH]; [done|]. simpl.
  destruct (last_with_key key rest) as [c'|] eqn:Hrest.
  - intros [= ->]. destruct (IH eq_refl) as (before & after & -> & Hkey & Hafter).
    by exists (c :: before), after.
  - destruct (decide (category_key c = Some key)) as [Hc|Hc]; [|done].
    intros [= <-]. exists [], rest. split; [done|]. split; [done|].
    apply Forall_forall. intros c' Hin Hc'.
    destruct (last_with_key_is_Some key rest c' Hin Hc') as [x Hx]. congruence.
Qed.

Lemma foldl_register_size columns : forall cm,
  (size (foldl PredictionLoader.register_column cm columns)
   <= size cm + length columns)%nat.
Proof.
  induction columns as [|col rest IH]; intros cm; simpl; [lia|].
  etransitivity; [apply IH|]. rewrite register_column_key.
  destruct (category_key col) as [key|]; [|lia].
  rewrite map_size_insert. destruct (cm !! key); simpl; unfold id; lia.
Qed.

Lemma foldl_register_no_shape columns :
  Forall (fun col => category_key col = None) columns ->
  foldl PredictionLoader.register_column ∅ columns = ∅.
Proof.
  intros Hnone. apply map_eq. intros key.
  rewrite foldl_register_lookup.
  destruct (last_with_key key columns) as [col|] eqn:Hlast; [|done].
  apply last_with_key_Some in Hlast as [Hin Hkey].
  rewrite Forall_forall in Hnone. rewrite (Hnone col Hin) in Hkey. discriminate.
Qed.

(** What a record of the second loop of [_build_column_mapping] is about. *)
Lemma case_mismatch_records_inv columns cm categories r :
  r ∈ case_mismatch_records columns cm categories ->
  exists category,
    category ∈ categories
    /\ (PredictionLoader.expected_col category ∉ columns)
    /\ ((r = NoColumnFound category /\ cm !! py_lower category = None)
        \/ (exists actual_col,
              r = ColumnCaseMismatch category (PredictionLoader.expected_col category)
                    actual_col
              /\ cm !! py_lower category = Some actual_col)).
Proof.
  unfold case_mismatch_records. intros Hr.
  apply list_elem_of_In, in_flat_map in Hr as (category & Hin & Hr).
  exists category. split; [by apply list_elem_of_In|].
  destruct (bool_decide (PredictionLoader.expected_col category ∈ columns)) eqn:Hexp;
    [by destruct Hr|].
  apply bool_decide_eq_false in Hexp. split; [done|].
  destruct (cm !! py_lower category) as [actual_col|];
    destruct Hr as [<-|[]]; [right; by eexists | by left].
Qed.

Lemma case_mismatch_records_no_map columns categories :
  Forall (fun c => PredictionLoader.expected_col c ∉ columns) categories ->
  case_mismatch_records columns ∅ categories = NoColumnFound <$> categories.
Proof.
  induction 1 as [|c rest Hc _ IH]; [done|].
  unfold case_mismatch_records in *. simpl.
  rewrite IH, bool_decide_eq_false_2 by done. by rewrite lookup_empty.
Qed.


Section LoaderFacts.

Variable ANNOTATION_CATEGORIES : list string.
Variable GroundTruthLoader_convert_value : string -> option Z.
Variable normalize_video_id : option string -> Res string.
Variable filesystem : string -> option CsvFile.
Variable unreadable : string -> option ReadFailure.
Variable self_model_name : string.

Abbreviation _parse_row :=
  (PredictionLoader._parse_row ANNOTATION_CATEGORIES GroundTruthLoader_convert_value
     normalize_video_id).
Abbreviation load_rows :=
  (PredictionLoader.load_rows ANNOTATION_CATEGORIES GroundTruthLoader_convert_value
     normalize_video_id).
Abbreviation load :=
  (PredictionLoader.load ANNOTATION_CATEGORIES GroundTruthLoader_convert_value
     normalize_video_id filesystem unreadable self_model_name).
Abbreviation _convert_value :=
  (PredictionLoader._convert_value GroundTruthLoader_convert_value).
Abbreviation annotate := (PredictionLoader.annotate GroundTruthLoader_convert_value).
Abbreviation _build_column_mapping :=
  (PredictionLoader._build_column_mapping ANNOTATION_CATEGORIES).
Abbreviation _extract_video_id :=
  (PredictionLoader._extract_video_id normalize_video_id).
Abbreviation loop_start := (loop_start ANNOTATION_CATEGORIES).
Abbreviation prediction_set := (prediction_set self_model_name).
Abbreviation record_of :=
  (record_of ANNOTATION_CATEGORIES GroundTruthLoader_convert_value normalize_video_id).
Abbreviation has_identifier := (has_identifier normalize_video_id).

Lemma build_column_mapping_run columns st :
  _build_column_mapping columns st
  = (Ok (foldl PredictionLoader.register_column ∅ columns),
     append_log st
       (case_mismatch_records columns
          (foldl PredictionLoader.register_column ∅ columns) ANNOTATION_CATEGORIES)).
Proof.
  unfold PredictionLoader._build_column_mapping.
  by rewrite (bind_ok _ _ _ _ _ (log_case_mismatches_run _ _ _ st)).
Qed.

(** One turn of the row loop. *)
Lemma load_rows_cons t v cm n row rows preds errs st :
  load_rows t v cm n (row :: rows) preds errs st
  = match _parse_row row t v cm n st with
    | (Ok (Some pred), st') => load_rows t v cm (S n) rows (preds ++ [pred]) errs st'
    | (Ok None, st') => load_rows t v cm (S n) rows preds errs st'
    | (Raise e, st') =>
        load_rows t v cm (S n) rows preds
          (errs ++ [PredictionLoader.parse_error n e]) st'
    end.
Proof.
  simpl. unfold bind, try_except, ret.
  destruct (_parse_row row t v cm n st) as [[[pred|]|e] st']; reflexivity.
Qed.

(** The row loop always runs to its end: no row makes it raise. *)
Lemma load_rows_total t v cm rows : forall n preds errs st,
  exists preds' errs' st',
    load_rows t v cm n rows preds errs st = (Ok (preds', errs'), st').
Proof.
  induction rows as [|row rows IH]; intros n preds errs st.
  - simpl. unfold ret. eauto.
  - rewrite load_rows_cons.
    destruct (_parse_row row t v cm n st) as [[[pred|]|e] st']; apply IH.
Qed.

(** The body of [load] from the header on, in terms of its row loop. *)
Lemma read_csv_run csv_path f reader_error st preds errs st2 :
  load_rows (is_tiktok_format_of f) (has_value_columns_of f) (column_mapping_of f)
    2 (data_rows f) [] [] (loop_start f st) = (Ok (preds, errs), st2) ->
  PredictionLoader.read_csv ANNOTATION_CATEGORIES GroundTruthLoader_convert_value
    normalize_video_id self_model_name csv_path f reader_error
    {| _logged_unexpected_values := Some ∅; logger := logger st |}
  = match reader_error with
    | Some e => (Raise e, st2)
    | None =>
        (Ok (prediction_set preds),
         append_log st2 (report_records errs ++ [Loaded (length preds) csv_path]))
    end.
Proof.
  intros Hloop. unfold PredictionLoader.read_csv.
  unfold bind at 1. rewrite log_run.
  unfold bind at 1. rewrite build_column_mapping_run.
  unfold bind at 1. rewrite log_run.
  unfold bind at 1.
  unfold loop_start, is_tiktok_format_of, has_value_columns_of, column_mapping_of,
    columns_of in Hloop.
  simpl in Hloop.
  unfold append_log at 1 2 3; simpl.
  rewrite <- !app_assoc; simpl.
  rewrite Hloop. simpl.
  destruct reader_error as [e|]; [reflexivity|].
  rewrite (bind_ok _ _ _ _ _ (report_parse_errors_run _ _)). cbv beta.
  rewrite (bind_ok _ _ _ _ _ (log_run _ _)). cbv beta.
  rewrite append_log_app. reflexivity.
Qed.

(** [load] on a file that is read to its end, in terms of its row loop. *)
Lemma load_run csv_path f st preds errs st2 :
  filesystem csv_path = Some f ->
  load_rows (is_tiktok_format_of f) (has_value_columns_of f) (column_mapping_of f)
    2 (data_rows f) [] [] (loop_start f st) = (Ok (preds, errs), st2) ->
  load csv_path st
  = (Ok (prediction_set preds),
     append_log st2 (report_records errs ++ [Loaded (length preds) csv_path])).
Proof.
  intros Hf Hloop. unfold PredictionLoader.load. rewrite Hf.
  unfold bind at 1. unfold PredictionLoader.reset_logged_unexpected_values.
  exact (read_csv_run csv_path f None st preds errs st2 Hloop).
Qed.

Lemma load_missing csv_path st :
  filesystem csv_path = None ->
  unreadable csv_path = None ->
  load csv_path st
  = (Raise (FileNotFoundError ("Predictions file not found: " +:+ csv_path)), st).
Proof. intros Hf Hu. unfold PredictionLoader.load. by rewrite Hf, Hu. Qed.

(** [load] on a path that exists and cannot be read: it raises the error
    of the failure.  When [open] or the header read fails, the dedup-log
    set has been reset and nothing is logged; when the reader fails later,
    the rows it yielded have gone through the row loop. *)
Lemma load_unreadable csv_path failure st :
  filesystem csv_path = None ->
  unreadable csv_path = Some failure ->
  load csv_path st
  = match failure with
    | OpenFails e =>
        (Raise e, {| _logged_unexpected_values := Some ∅; logger := logger st |})
    | ReaderFails f e =>
        (Raise e,
         (load_rows (is_tiktok_format_of f) (has_value_columns_of f)
            (column_mapping_of f) 2 (data_rows f) [] [] (loop_start f st)).2)
    end.
Proof.
  intros Hf Hu. unfold PredictionLoader.load. rewrite Hf, Hu.
  destruct failure as [e|f e]; [reflexivity|].
  unfold bind at 1. unfold PredictionLoader.reset_logged_unexpected_values.
  destruct (load_rows_total (is_tiktok_format_of f) (has_value_columns_of f)
              (column_mapping_of f) (data_rows f) 2%nat [] [] (loop_start f st))
    as (preds & errs & st2 & Hloop).
  rewrite (read_csv_run csv_path f (Some e) st preds errs st2 Hloop).
  by rewrite Hloop.
Qed.

(** What a successful [load] returns. *)
Lemma load_inv csv_path st ps st' :
  load csv_path st = (Ok ps, st') ->
  exists f preds errs st2,
    filesystem csv_path = Some f
    /\ load_rows (is_tiktok_format_of f) (has_value_columns_of f)
         (column_mapping_of f) 2 (data_rows f) [] [] (loop_start f st)
       = (Ok (preds, errs), st2)
    /\ ps = prediction_set preds
    /\ st' = append_log st2 (report_records errs ++ [Loaded (length preds) csv_path]).
Proof.
  intros H. destruct (filesystem csv_path) as [f|] eqn:Hf.
  - destruct (load_rows_total (is_tiktok_format_of f) (has_value_columns_of f)
                (column_mapping_of f) (data_rows f) 2%nat [] [] (loop_start f st))
      as (preds & errs & st2 & Hloop).
    rewrite (load_run _ _ _ _ _ _ Hf Hloop) in H.
    injection H as <- <-. exists f, preds, errs, st2. auto.
  - destruct (unreadable csv_path) as [failure|] eqn:Hu.
    + rewrite (load_unreadable _ _ st Hf Hu) in H. by destruct failure.
    + rewrite load_missing in H by done. discriminate.
Qed.

(** ** The row loop *)

(** Running the loop over two stretches of rows, one after the other. *)
Lemma load_rows_app t v cm rows1 rows2 : forall n preds errs st preds1 errs1 st1,
  load_rows t v cm n rows1 preds errs st = (Ok (preds1, errs1), st1) ->
  load_rows t v cm n (rows1 ++ rows2) preds errs st
  = load_rows t v cm (n + length rows1) rows2 preds1 errs1 st1.
Proof.
  induction rows1 as [|row rows1 IH]; intros n preds errs st preds1 errs1 st1 H.
  - simpl in H. injection H as <- <- <-. simpl. by rewrite Nat.add_0_r.
  - simpl app. rewrite load_rows_cons in *. simpl length.
    replace (n + S (length rows1))%nat with (S n + length rows1)%nat by lia.
    destruct (_parse_row row t v cm n st) as [[[pred|]|e] st0]; by apply IH.
Qed.

(** The loop only ever appends to the two lists it carries. *)
Lemma load_rows_extends t v cm rows : forall n preds errs st preds' errs' st',
  load_rows t v cm n rows preds errs st = (Ok (preds', errs'), st') ->
  exists more more_errs, preds' = preds ++ more /\ errs' = errs ++ more_errs.
Proof.
  induction rows as [|row rows IH]; intros n preds errs st preds' errs' st' H.
  - simpl in H. injection H as <- <- <-. exists [], []. by rewrite !app_nil_r.
  - rewrite load_rows_cons in H.
    destruct (_parse_row row t v cm n st) as [[[pred|]|e] st0];
      destruct (IH _ _ _ _ _ _ _ H) as (more & more_errs & -> & ->).
    + exists (pred :: more), more_errs. by rewrite <- app_assoc.
    + by exists more, more_errs.
    + exists more, (PredictionLoader.parse_error n e :: more_errs).
      by rewrite <- app_assoc.
Qed.

(** Every record the loop adds is the parse of one of its rows. *)
Lemma load_rows_Forall (P : PredictionResult.t -> Prop) t v cm rows :
  (forall row n st pred st',
      row ∈ rows -> _parse_row row t v cm n st = (Ok (Some pred), st') -> P pred) ->
  forall n preds errs st preds' errs' st',
    Forall P preds ->
    load_rows t v cm n rows preds errs st = (Ok (preds', errs'), st') ->
    Forall P preds'.
Proof.
  induction rows as [|row rows IH]; intros HP n preds errs st preds' errs' st' Hpreds H.
  - simpl in H. by injection H as <- <- <-.
  - rewrite load_rows_cons in H.
    assert (HP' : forall row' n st pred st', row' ∈ rows ->
              _parse_row row' t v cm n st = (Ok (Some pred), st') -> P pred).
    { intros row' ? ? ? ? Hin. apply HP. by apply list_elem_of_further. }
    destruct (_parse_row row t v cm n st) as [[[pred|]|e] st0] eqn:Hrow.
    + eapply (IH HP'); [|exact H]. apply Forall_app. split; [done|].
      constructor; [|constructor]. eapply HP; [|exact Hrow]. apply list_elem_of_here.
    + by eapply (IH HP').
    + by eapply (IH HP').
Qed.

(** ** The aggregate that [load] returns *)

(** C4: every successful [load] returns a Prediction Set whose
    [total_count] and [success_count] both equal the number of Prediction
    Records it holds, whose [failure_count] is 0 and whose
    [failed_video_ids] is empty.  Rows that raised while being parsed are
    dropped and leave no trace in these fields: the counters are computed
    from the collected records alone. *)
Theorem load_counts csv_path st ps st' :
  load csv_path st = (Ok ps, st') ->
  PredictionSet.total_count ps = length (PredictionSet.predictions ps)
  /\ PredictionSet.success_count ps = length (PredictionSet.predictions ps)
  /\ PredictionSet.failure_count ps = 0%nat
  /\ PredictionSet.failed_video_ids ps = [].
Proof.
  intros H. apply load_inv in H as (f & preds & errs & st2 & _ & _ & -> & _).
  unfold prediction_set; simpl. auto.
Qed.

(** ** The missing file *)


(** ** The format flag *)

Lemma load_rows_flag t1 t2 v cm rows : forall n preds errs st,
  load_rows t1 v cm n rows preds errs st = load_rows t2 v cm n rows preds errs st.
Proof.
  induction rows as [|row rows IH]; intros n preds errs st; [reflexivity|].
  rewrite !load_rows_cons.
  change (_parse_row row t1 v cm n st) with (_parse_row row t2 v cm n st).
  destruct (_parse_row row t2 v cm n st) as [[[pred|]|e] st0]; apply IH.
Qed.

(** C10: the parsed output does not depend on the linked-format flag.
    [_parse_row] gives the same result and the same state whether
    [is_tiktok_format] is true or false, and so does the whole row loop;
    hence the records of the Prediction Set that [load] returns are those
    the loop collects under either value of the flag.  The flag computed
    by [load] reaches only the [DetectedFormat] log record. *)
Theorem parse_independent_of_tiktok_flag :
  (forall row t1 t2 v cm n st,
      _parse_row row t1 v cm n st = _parse_row row t2 v cm n st)
  /\ (forall t1 t2 v cm n rows preds errs st,
        load_rows t1 v cm n rows preds errs st
        = load_rows t2 v cm n rows preds errs st)
  /\ (forall csv_path st ps st' f t,
        load csv_path st = (Ok ps, st') ->
        filesystem csv_path = Some f ->
        exists errs st2,
          load_rows t (has_value_columns_of f) (column_mapping_of f) 2
            (data_rows f) [] [] (loop_start f st)
          = (Ok (PredictionSet.predictions ps, errs), st2)).
Proof.
  split; [reflexivity|]. split.
  - intros. apply load_rows_flag.
  - intros csv_path st ps st' f t Hload Hf.
    apply load_inv in Hload as (f' & preds & errs & st2 & Hf' & Hloop & -> & _).
    rewrite Hf in Hf'. injection Hf' as <-.
    exists errs, st2.
    rewrite (load_rows_flag t (is_tiktok_format_of f)), Hloop. reflexivity.
Qed.

(** ** Rows that raise *)

(** What is surfaced of the collected diagnostics: their count, then at
    most five of them. *)
Lemma report_records_length errs : (length (report_records errs) <= 6)%nat.
Proof.
  destruct errs as [|e errs]; simpl; [lia|].
  rewrite length_fmap, length_take. lia.
Qed.

(** A row whose parsing raises is caught by the loop.  When the rows
    before it leave the loop with records [preds1] and diagnostics
    [errs1], the loop goes on with the next row, with the same records
    and with the diagnostic of the row appended, and runs to its end. *)
Lemma load_rows_exception t v cm n before row after preds errs st
    preds1 errs1 st1 e st2 :
  load_rows t v cm n before preds errs st = (Ok (preds1, errs1), st1) ->
  _parse_row row t v cm (n + length before) st1 = (Raise e, st2) ->
  load_rows t v cm n (before ++ row :: after) preds errs st
  = load_rows t v cm (S (n + length before)) after preds1
      (errs1 ++ [PredictionLoader.parse_error (n + length before) e]) st2.
Proof.
  intros Hbefore Hrow.
  by rewrite (load_rows_app _ _ _ _ _ _ _ _ _ _ _ _ Hbefore), load_rows_cons, Hrow.
Qed.

(** ** One value *)

(** [_convert_value] on a text, case by case. *)
Lemma convert_value_run s c n st :
  _convert_value (Some s) c n st
  = if bool_decide (GroundTruthLoader_convert_value s = None) && truthy s then
      match _logged_unexpected_values st with
      | None =>
          (Raise (AttributeError
             "'PredictionLoader' object has no attribute '_logged_unexpected_values'"),
           st)
      | Some logged =>
          if bool_decide ((c, s) ∈ logged) then (Ok 0, st)
          else (Ok 0,
                {| _logged_unexpected_values := Some ({[ (c, s) ]} ∪ logged);
                   logger := logger st ++ [UnexpectedValue s c n] |})
      end
    else (Ok (default 0 (GroundTruthLoader_convert_value s)), st).
Proof.
  unfold PredictionLoader._convert_value, bind, ret.
  destruct (GroundTruthLoader_convert_value s) as [z|] eqn:Hs; simpl; [done|].
  destruct (truthy s); simpl; [|done].
  destruct (_logged_unexpected_values st) as [logged|]; [|done].
  by destruct (bool_decide ((c, s) ∈ logged)).
Qed.

Lemma convert_value_value s c n st z st' :
  _convert_value (Some s) c n st = (Ok z, st') ->
  z = default 0 (GroundTruthLoader_convert_value s).
Proof.
  rewrite convert_value_run.
  destruct (GroundTruthLoader_convert_value s) as [z'|] eqn:Hs; simpl.
  - by intros [= <- _].
  - destruct (truthy s); simpl; [|by intros [= <- _]].
    destruct (_logged_unexpected_values st) as [logged|]; [|discriminate].
    destruct (bool_decide ((c, s) ∈ logged)); by intros [= <- _].
Qed.

(** ** One row *)

Lemma annotate_inv cell n categories : forall ann st ann' st',
  annotate cell n categories ann st = (Ok ann', st') ->
  dom ann' = dom ann ∪ list_to_set categories
  /\ (forall c, c ∈ categories ->
        exists text, cell c = Ok text
          /\ ann' !! c = Some (default 0 (GroundTruthLoader_convert_value text)))
  /\ (forall c, c ∉ categories -> ann' !! c = ann !! c).
Proof.
  induction categories as [|c0 rest IH]; intros ann st ann' st' H.
  - simpl in H. injection H as <- <-.
    split; [by rewrite list_to_set_nil, (right_id_L ∅ (∪))|].
    split; [|done]. intros c Hc. by apply elem_of_nil in Hc.
  - simpl in H.
    apply bind_inv_ok in H as (text & st1 & Hcell & H).
    apply bind_inv_ok in H as (z & st2 & Hconv & H).
    unfold lift in Hcell. injection Hcell as Hcell <-.
    apply convert_value_value in Hconv as ->.
    apply IH in H as (Hdom & Hin & Hout).
    split.
    { by rewrite Hdom, dom_insert_L, list_to_set_cons,
        (comm_L (∪) {[c0]} (dom ann)), (assoc_L (∪)). }
    split.
    + intros c Hc. destruct (decide (c ∈ rest)) as [Hrest|Hrest]; [by apply Hin|].
      apply elem_of_cons in Hc as [->|Hc]; [|done].
      exists text. split; [done|]. by rewrite (Hout _ Hrest), lookup_insert_eq.
    + intros c Hc. apply not_elem_of_cons in Hc as [Hne Hc].
      by rewrite (Hout _ Hc), lookup_insert_ne.
Qed.

Lemma truthy_ne s : truthy s = true <-> s <> "".
Proof.
  unfold truthy. destruct (String.eqb_spec s ""); simpl; split; intros; congruence.
Qed.

Lemma parse_row_skip_no_field row t v cm n st :
  PredictionLoader.video_id_of_row normalize_video_id row = None ->
  _parse_row row t v cm n st = (Ok None, st).
Proof. intros H. unfold PredictionLoader._parse_row. by rewrite H. Qed.

Lemma parse_row_skip_empty row t v cm n st video_id :
  PredictionLoader.video_id_of_row normalize_video_id row = Some (Ok video_id) ->
  PredictionLoader.truthy_id video_id = false ->
  _parse_row row t v cm n st = (Ok None, st).
Proof.
  intros H Hfalsy. unfold PredictionLoader._parse_row. rewrite H.
  unfold bind, lift. by rewrite Hfalsy.
Qed.

Lemma parse_row_raise_id row t v cm n st e :
  PredictionLoader.video_id_of_row normalize_video_id row = Some (Raise e) ->
  _parse_row row t v cm n st = (Raise e, st).
Proof. intros H. unfold PredictionLoader._parse_row. by rewrite H. Qed.

(** With an identifier in hand, [_parse_row] is the loop over the
    categories. *)
Lemma parse_row_annotate row t v cm n st video_id :
  PredictionLoader.video_id_of_row normalize_video_id row = Some (Ok (Some video_id)) ->
  video_id <> "" ->
  _parse_row row t v cm n st
  = match annotate (read_cell v cm row) n ANNOTATION_CATEGORIES ∅ st with
    | (Ok annotations, st') =>
        (Ok (Some {| PredictionResult.video_id := video_id;
                     PredictionResult.predictions := annotations;
                     PredictionResult.success := true;
                     PredictionResult.error_message := None;
                     PredictionResult.inference_time := 0%Q |}), st')
    | (Raise e, st') => (Raise e, st')
    end.
Proof.
  intros H Hne. apply truthy_ne in Hne.
  unfold PredictionLoader._parse_row. rewrite H.
  unfold bind at 1. unfold lift. simpl. rewrite Hne. simpl.
  unfold bind, ret, read_cell. by destruct v.
Qed.

Lemma parse_row_inv row t v cm n st r st' :
  _parse_row row t v cm n st = (Ok (Some r), st') -> record_of v cm row r.
Proof.
  intros H.
  destruct (PredictionLoader.video_id_of_row normalize_video_id row)
    as [[video_id|e]|] eqn:Hid.
  - destruct (PredictionLoader.truthy_id video_id) eqn:Htruthy.
    + destruct video_id as [video_id|]; [|discriminate]. simpl in Htruthy.
      apply truthy_ne in Htruthy.
      rewrite (parse_row_annotate _ _ _ _ _ _ _ Hid Htruthy) in H.
      destruct (annotate (read_cell v cm row) n ANNOTATION_CATEGORIES ∅ st)
        as [[ann|e] st1] eqn:Hann; [|discriminate].
      injection H as <- <-.
      apply annotate_inv in Hann as (Hdom & Hin & _).
      unfold record_of; simpl. repeat split; try done.
      by rewrite Hdom, dom_empty_L, (left_id_L ∅ (∪)).
    + rewrite (parse_row_skip_empty _ _ _ _ _ _ _ Hid Htruthy) in H. discriminate.
  - rewrite (parse_row_raise_id _ _ _ _ _ _ _ Hid) in H. discriminate.
  - rewrite (parse_row_skip_no_field _ _ _ _ _ _ Hid) in H. discriminate.
Qed.

Abbreviation record_with_id :=
  (record_with_id ANNOTATION_CATEGORIES GroundTruthLoader_convert_value).

Lemma parse_row_with_id row t v cm n st video_id :
  PredictionLoader.video_id_of_row normalize_video_id row = Some (Ok (Some video_id)) ->
  truthy video_id = true ->
  _parse_row row t v cm n st = record_with_id video_id row v cm n st.
Proof.
  intros Hid Hne. apply truthy_ne in Hne.
  rewrite (parse_row_annotate _ _ _ _ _ _ _ Hid Hne).
  unfold record_with_id, bind, ret.
  by destruct (annotate (read_cell v cm row) n ANNOTATION_CATEGORIES ∅ st)
    as [[ann|e] st1].
Qed.

Lemma parse_row_falsy_id row t v cm n st video_id :
  PredictionLoader.video_id_of_row normalize_video_id row = Some (Ok (Some video_id)) ->
  truthy video_id = false ->
  _parse_row row t v cm n st = (Ok None, st).
Proof. intros Hid Hf. by apply (parse_row_skip_empty _ _ _ _ _ _ _ Hid). Qed.

(** C2: [_parse_row] takes the identifier of a row from the first of three
    fields that the row has, and what it returns is fixed by that field.
    With a ["filename"] field, whatever the other fields: the identifier is
    what [normalize_video_id] makes of the filename, or the raw filename
    when that is empty (the filename-specific extraction); the row is
    skipped when both are empty, and an exception of the resolver is
    raised.  Without it, with a ["1_Link1"] field: the identifier is what
    [normalize_video_id] makes of the link; the row is skipped when that is
    empty.  With neither, with a ["video_id"] field: the identifier is the
    trimmed field; the row is skipped when that is empty, and a field left
    at [None] raises.  With none of the three fields the row is skipped.
    A skip returns no record, raises nothing and leaves the state (the log
    included) as it was, and the loop goes on with the records and the
    diagnostics it had.  With a non-empty identifier the row is never
    skipped: [_parse_row] reads its categories and the record it returns
    carries that identifier. *)
Theorem identifier_priority_and_skip row t v cm n st :
  (forall filename, fields row !! "filename" = Some filename ->
     _parse_row row t v cm n st
     = match normalize_video_id filename with
       | Raise e => (Raise e, st)
       | Ok s =>
           if truthy s then record_with_id s row v cm n st
           else match filename with
                | Some raw =>
                    if truthy raw then record_with_id raw row v cm n st
                    else (Ok None, st)
                | None => (Ok None, st)
                end
       end)
  /\ (forall link,
        fields row !! "filename" = None ->
        fields row !! "1_Link1" = Some link ->
        _parse_row row t v cm n st
        = match normalize_video_id link with
          | Raise e => (Raise e, st)
          | Ok s => if truthy s then record_with_id s row v cm n st else (Ok None, st)
          end)
  /\ (forall raw,
        fields row !! "filename" = None ->
        fields row !! "1_Link1" = None ->
        fields row !! "video_id" = Some raw ->
        _parse_row row t v cm n st
        = match raw with
          | None =>
              (Raise (AttributeError "'NoneType' object has no attribute 'strip'"), st)
          | Some text =>
              if truthy (py_strip text)
              then record_with_id (py_strip text) row v cm n st
              else (Ok None, st)
          end)
  /\ (fields row !! "filename" = None ->
      fields row !! "1_Link1" = None ->
      fields row !! "video_id" = None ->
      _parse_row row t v cm n st = (Ok None, st))
  /\ (forall video_id result st',
        record_with_id video_id row v cm n st = (Ok result, st') ->
        exists r, result = Some r /\ PredictionResult.video_id r = video_id)
  /\ (forall rows preds errs,
        _parse_row row t v cm n st = (Ok None, st) ->
        load_rows t v cm n (row :: rows) preds errs st
        = load_rows t v cm (S n) rows preds errs st).
Proof.
  split; [|split; [|split; [|split; [|split]]]].
  - intros filename Hfield.
    assert (Hid : PredictionLoader.video_id_of_row normalize_video_id row
                  = Some (_extract_video_id filename)).
    { unfold PredictionLoader.video_id_of_row. by rewrite Hfield. }
    unfold PredictionLoader._extract_video_id in Hid.
    destruct (normalize_video_id filename) as [s|e].
    + destruct (truthy s) eqn:Hs; [by apply parse_row_with_id|].
      destruct filename as [raw|].
      * destruct (truthy raw) eqn:Hraw;
          [by apply parse_row_with_id | by eapply parse_row_falsy_id].
      * by apply (parse_row_skip_empty _ _ _ _ _ _ _ Hid).
    + by apply parse_row_raise_id.
  - intros link Hfile Hfield.
    assert (Hid : PredictionLoader.video_id_of_row normalize_video_id row
                  = Some (res_map Some (normalize_video_id link))).
    { unfold PredictionLoader.video_id_of_row. by rewrite Hfile, Hfield. }
    destruct (normalize_video_id link) as [s|e]; simpl in Hid.
    + destruct (truthy s) eqn:Hs;
        [by apply parse_row_with_id | by eapply parse_row_falsy_id].
    + by apply parse_row_raise_id.
  - intros raw Hfile Hlink Hfield.
    assert (Hid : PredictionLoader.video_id_of_row normalize_video_id row
                  = Some (res_map Some (strip_method raw))).
    { unfold PredictionLoader.video_id_of_row. by rewrite Hfile, Hlink, Hfield. }
    destruct raw as [text|]; simpl in Hid.
    + destruct (truthy (py_strip text)) eqn:Hs;
        [by apply parse_row_with_id | by eapply parse_row_falsy_id].
    + by apply parse_row_raise_id.
  - intros H1 H2 H3. apply parse_row_skip_no_field.
    unfold PredictionLoader.video_id_of_row. by rewrite H1, H2, H3.
  - intros video_id result st' H. unfold record_with_id, bind, ret in H.
    destruct (annotate (read_cell v cm row) n ANNOTATION_CATEGORIES ∅ st)
      as [[ann|e] st1]; [|discriminate].
    injection H as <- _. by eexists.
  - intros rows preds errs H. by rewrite load_rows_cons, H.
Qed.

(** ** Every category has an entry *)

Lemma row_get_absent row key : fields row !! key = None -> row_get row key "" = Some "".
Proof. intros H. unfold row_get. by rewrite H. Qed.

Lemma read_cell_no_column v cm row c :
  no_column v cm row c -> read_cell v cm row c = Ok "".
Proof.
  unfold no_column, read_cell. destruct v.
  - intros [Hexact Hmapped]. unfold PredictionLoader.value_columns_cell.
    rewrite Hexact.
    assert (Hfirst :
      match PredictionLoader.find_csv_col PredictionLoader.COLUMN_MAPPING c with
      | Some col => if truthy col then strip_method (row_get row col "") else Ok ""
      | None => Ok ""
      end = Ok "").
    { destruct (PredictionLoader.find_csv_col PredictionLoader.COLUMN_MAPPING c)
        as [col|]; [|done].
      simpl in Hexact. apply bool_decide_eq_false in Hexact.
      destruct (truthy col); [|done].
      rewrite row_get_absent; [done|].
      destruct (fields row !! col) eqn:E; [|done]. destruct Hexact. by eexists. }
    rewrite Hfirst. simpl.
    destruct (cm !! py_lower c) as [actual_col|]; [|done].
    by rewrite row_get_absent.
  - intros H. unfold PredictionLoader.standard_cell. by rewrite row_get_absent.
Qed.

(** C1: every Prediction Record that [load] returns has an entry for each
    canonical category and for nothing else: the key set of its
    [predictions] is the canonical set, whatever columns the file has.
    The record is the parse of one of the file's rows, and the value
    stored for a category is the Value Normalizer's code for the text read
    from that row, or 0 when the normalizer does not recognize the text;
    when no column of the row holds the category the text read is empty
    and the stored value is 0 (the normalizer maps the empty text to 0 or
    does not recognize it). *)
Theorem predictions_cover_all_categories csv_path st ps st' f r :
  default 0 (GroundTruthLoader_convert_value "") = 0 ->
  load csv_path st = (Ok ps, st') ->
  filesystem csv_path = Some f ->
  r ∈ PredictionSet.predictions ps ->
  dom (PredictionResult.predictions r) = list_to_set ANNOTATION_CATEGORIES
  /\ exists row,
       row ∈ data_rows f
       /\ forall c, c ∈ ANNOTATION_CATEGORIES ->
            exists text,
              read_cell (has_value_columns_of f) (column_mapping_of f) row c = Ok text
              /\ PredictionResult.predictions r !! c
                 = Some (default 0 (GroundTruthLoader_convert_value text))
              /\ (GroundTruthLoader_convert_value text = None ->
                  PredictionResult.predictions r !! c = Some 0)
              /\ (no_column (has_value_columns_of f) (column_mapping_of f) row c ->
                  text = "" /\ PredictionResult.predictions r !! c = Some 0).
Proof.
  intros Hempty Hload Hf Hr.
  apply load_inv in Hload as (f' & preds & errs & st2 & Hf' & Hloop & -> & _).
  rewrite Hf in Hf'. injection Hf' as <-. simpl in Hr.
  assert (Hall : Forall (fun r => exists row, row ∈ data_rows f
                   /\ record_of (has_value_columns_of f) (column_mapping_of f) row r)
                   preds).
  { eapply load_rows_Forall; [|constructor|exact Hloop].
    intros row n0 st0 pred st0' Hin Hrow. exists row. split; [done|].
    by eapply parse_row_inv. }
  rewrite Forall_forall in Hall.
  destruct (Hall r Hr) as (row & Hin & _ & _ & Hdom & Hcells & _).
  split; [done|]. exists row. split; [done|].
  intros c Hc. destruct (Hcells c Hc) as (text & Hread & Hval).
  exists text. split; [done|]. split; [done|]. split.
  - intros Hnone. by rewrite Hval, Hnone.
  - intros Hno. apply read_cell_no_column in Hno. rewrite Hno in Hread.
    injection Hread as <-. split; [done|]. by rewrite Hval, Hempty.
Qed.

(** ** One record per row *)

Lemma strip_method_text row key :
  cells_are_text row -> exists text, strip_method (row_get row key "") = Ok text.
Proof.
  intros Htext. unfold row_get.
  destruct (fields row !! key) as [v|] eqn:E; [|by eexists].
  destruct (Htext _ _ E) as [s ->]. by eexists.
Qed.

Lemma read_cell_text v cm row c :
  cells_are_text row -> exists text, read_cell v cm row c = Ok text.
Proof.
  intros Htext. unfold read_cell. destruct v; [|by apply strip_method_text].
  unfold PredictionLoader.value_columns_cell.
  set (csv_col := PredictionLoader.find_csv_col PredictionLoader.COLUMN_MAPPING c).
  assert (Hfirst : exists text,
    match csv_col with
    | Some col => if truthy col then strip_method (row_get row col "") else Ok ""
    | None => Ok ""
    end = Ok text).
  { destruct csv_col as [col|]; [|by eexists].
    destruct (truthy col); [by apply strip_method_text | by eexists]. }
  destruct Hfirst as [text ->].
  destruct (negb (truthy text) && negb (in_row csv_col row)); [|by eexists].
  destruct (cm !! py_lower c); [by apply strip_method_text | by eexists].
Qed.

Lemma convert_value_ok s c n st :
  is_Some (_logged_unexpected_values st) ->
  exists z st', _convert_value (Some s) c n st = (Ok z, st')
                /\ is_Some (_logged_unexpected_values st').
Proof.
  intros [logged Hlogged]. rewrite convert_value_run, Hlogged.
  destruct (bool_decide (GroundTruthLoader_convert_value s = None) && truthy s).
  - destruct (bool_decide ((c, s) ∈ logged)); eexists _, _; split; try done;
      simpl; by rewrite ?Hlogged.
  - eexists _, _; split; [done|]. by rewrite Hlogged.
Qed.

Lemma annotate_ok cell n categories :
  (forall c, exists text, cell c = Ok text) ->
  forall ann st,
    is_Some (_logged_unexpected_values st) ->
    exists ann' st', annotate cell n categories ann st = (Ok ann', st')
                     /\ is_Some (_logged_unexpected_values st').
Proof.
  intros Hcell. induction categories as [|c rest IH]; intros ann st Hst.
  - by exists ann, st.
  - simpl. destruct (Hcell c) as [text Htext].
    unfold bind at 1. unfold lift. rewrite Htext.
    destruct (convert_value_ok text c n st Hst) as (z & st1 & Hconv & Hst1).
    rewrite (bind_ok _ _ _ _ _ Hconv). by apply IH.
Qed.

Lemma parse_row_ok row t v cm n st :
  has_identifier row = true ->
  cells_are_text row ->
  is_Some (_logged_unexpected_values st) ->
  exists r st', _parse_row row t v cm n st = (Ok (Some r), st')
                /\ is_Some (_logged_unexpected_values st').
Proof.
  unfold has_identifier. intros Hid Htext Hst.
  destruct (PredictionLoader.video_id_of_row normalize_video_id row)
    as [[[video_id|]|e]|] eqn:E; try discriminate.
  apply truthy_ne in Hid.
  rewrite (parse_row_annotate _ _ _ _ _ _ _ E Hid).
  destruct (annotate_ok (read_cell v cm row) n ANNOTATION_CATEGORIES
              (fun c => read_cell_text v cm row c Htext) ∅ st Hst)
    as (ann & st' & -> & Hst').
  by eexists _, _.
Qed.

Lemma load_rows_all_parsed t v cm rows : forall n preds errs st,
  Forall (fun row => has_identifier row = true /\ cells_are_text row) rows ->
  is_Some (_logged_unexpected_values st) ->
  exists more st',
    load_rows t v cm n rows preds errs st = (Ok (preds ++ more, errs), st')
    /\ Forall2 (record_of v cm) rows more.
Proof.
  induction rows as [|row rows IH]; intros n preds errs st Hrows Hst.
  - exists [], st. rewrite app_nil_r. by split; [|constructor].
  - apply Forall_cons in Hrows as [[Hid Htext] Hrows].
    destruct (parse_row_ok row t v cm n st Hid Htext Hst) as (r & st1 & Hrow & Hst1).
    rewrite load_rows_cons, Hrow.
    destruct (IH (S n) (preds ++ [r]) errs st1 Hrows Hst1) as (more & st' & -> & Hmore).
    exists (r :: more), st'. rewrite <- app_assoc. split; [done|].
    constructor; [by eapply parse_row_inv | done].
Qed.


(** ** Surrounding whitespace *)

Lemma same_up_to_whitespace_lookup row1 row2 key :
  same_up_to_whitespace row1 row2 ->
  trim_field <$> (fields row1 !! key) = trim_field <$> (fields row2 !! key).
Proof. intros [H _]. by rewrite <- !lookup_fmap, H. Qed.

Lemma strip_get_same row1 row2 key :
  same_up_to_whitespace row1 row2 ->
  strip_method (row_get row1 key "") = strip_method (row_get row2 key "").
Proof.
  intros H. apply (same_up_to_whitespace_lookup _ _ key) in H. unfold row_get.
  destruct (fields row1 !! key) as [[s1|]|], (fields row2 !! key) as [[s2|]|];
    simpl in H; try discriminate; try done.
  injection H as H. simpl. by rewrite H.
Qed.

Lemma in_row_same row1 row2 key :
  same_up_to_whitespace row1 row2 -> in_row key row1 = in_row key row2.
Proof.
  intros H. destruct key as [key|]; [|by destruct H].
  apply (same_up_to_whitespace_lookup _ _ key) in H. simpl.
  destruct (fields row1 !! key), (fields row2 !! key); try discriminate; done.
Qed.

Lemma read_cell_same v cm row1 row2 c :
  same_up_to_whitespace row1 row2 -> read_cell v cm row1 c = read_cell v cm row2 c.
Proof.
  intros H. unfold read_cell, PredictionLoader.value_columns_cell,
    PredictionLoader.standard_cell.
  destruct v; [|by apply strip_get_same].
  rewrite (in_row_same _ _ _ H).
  destruct (cm !! py_lower c) as [actual_col|];
    [rewrite (strip_get_same _ _ actual_col H)|];
    (destruct (PredictionLoader.find_csv_col PredictionLoader.COLUMN_MAPPING c)
       as [col|]; [|done]);
    by rewrite (strip_get_same _ _ col H).
Qed.

Lemma annotate_cons cell n c rest ann st :
  annotate cell n (c :: rest) ann st
  = match cell c with
    | Ok text =>
        match _convert_value (Some text) c n st with
        | (Ok z, st1) => annotate cell n rest (<[c := z]> ann) st1
        | (Raise e, st1) => (Raise e, st1)
        end
    | Raise e => (Raise e, st)
    end.
Proof.
  change (annotate cell n (c :: rest) ann st)
    with (bind (lift (cell c))
            (fun text => bind (_convert_value (Some text) c n)
                           (fun z => annotate cell n rest (<[c := z]> ann))) st).
  unfold bind at 1. unfold lift. destruct (cell c) as [text|e]; [|done].
  unfold bind. by destruct (_convert_value (Some text) c n st) as [[z|e] st1].
Qed.

Lemma annotate_ext cell1 cell2 n categories :
  (forall c, cell1 c = cell2 c) ->
  forall ann st, annotate cell1 n categories ann st = annotate cell2 n categories ann st.
Proof.
  intros Hcell. induction categories as [|c rest IH]; intros ann st; [done|].
  rewrite !annotate_cons, Hcell.
  destruct (cell2 c) as [text|e]; [|done].
  destruct (_convert_value (Some text) c n st) as [[z|e] st1]; [|done].
  apply IH.
Qed.

(** C9: value conversion does not see surrounding whitespace.  The text
    of a category cell is trimmed before it is converted, so two rows with
    the same identifier whose fields agree once trimmed are parsed alike,
    in both layouts, for every row number and in every state: each
    category reads the same text, and [_parse_row] returns the same result
    and leaves the same state.  Trimming is idempotent, and [" present "]
    and ["present"] convert identically. *)
Theorem conversion_ignores_surrounding_whitespace row1 row2 :
  same_up_to_whitespace row1 row2 ->
  PredictionLoader.video_id_of_row normalize_video_id row1
    = PredictionLoader.video_id_of_row normalize_video_id row2 ->
  (forall v cm c, read_cell v cm row1 c = read_cell v cm row2 c)
  /\ (forall t v cm n st, _parse_row row1 t v cm n st = _parse_row row2 t v cm n st)
  /\ (forall raw, py_strip (py_strip raw) = py_strip raw)
  /\ (forall c n st,
        _convert_value (Some (py_strip " present ")) c n st
        = _convert_value (Some (py_strip "present")) c n st).
Proof.
  intros Hsame Hid. split; [intros; by apply read_cell_same|].
  split; [|split; [apply py_strip_idempotent | reflexivity]].
  intros t v cm n st.
  destruct (PredictionLoader.video_id_of_row normalize_video_id row2)
    as [[video_id|e]|] eqn:Hid2.
  - destruct (PredictionLoader.truthy_id video_id) eqn:Htruthy.
    + destruct video_id as [video_id|]; [|discriminate]. simpl in Htruthy.
      apply truthy_ne in Htruthy.
      rewrite (parse_row_annotate _ _ _ _ _ _ _ Hid Htruthy),
        (parse_row_annotate _ _ _ _ _ _ _ Hid2 Htruthy).
      rewrite (annotate_ext (read_cell v cm row1) (read_cell v cm row2));
        [done|]. intros c. by apply read_cell_same.
    + by rewrite (parse_row_skip_empty _ _ _ _ _ _ _ Hid Htruthy),
        (parse_row_skip_empty _ _ _ _ _ _ _ Hid2 Htruthy).
  - by rewrite (parse_row_raise_id _ _ _ _ _ _ _ Hid),
      (parse_row_raise_id _ _ _ _ _ _ _ Hid2).
  - by rewrite (parse_row_skip_no_field _ _ _ _ _ _ Hid),
      (parse_row_skip_no_field _ _ _ _ _ _ Hid2).
Qed.

(** ** Warnings about unexpected values *)

Lemma unexpected_keys_app l1 l2 :
  unexpected_keys (l1 ++ l2) = unexpected_keys l1 ++ unexpected_keys l2.
Proof. apply omap_app. Qed.

Lemma unexpected_keys_case_mismatch columns cm categories :
  unexpected_keys (case_mismatch_records columns cm categories) = [].
Proof.
  induction categories as [|c rest IH]; [done|].
  unfold case_mismatch_records in *. simpl. rewrite unexpected_keys_app, IH.
  destruct (bool_decide (PredictionLoader.expected_col c ∈ columns)); [done|].
  by destruct (cm !! py_lower c).
Qed.

Lemma unexpected_keys_report errs : unexpected_keys (report_records errs) = [].
Proof.
  destruct errs as [|e errs]; [done|]. unfold report_records.
  generalize (take 5 (e :: errs)). intros l. simpl.
  induction l as [|x l IH]; [done|]. exact IH.
Qed.

Lemma dedup_step_refl st : dedup_step st st.
Proof.
  intros logged H. exists []. rewrite app_nil_r. repeat split.
  - constructor.
  - intros k Hk. by apply elem_of_nil in Hk.
  - rewrite H. simpl. by rewrite (left_id_L ∅ (∪)).
Qed.

Lemma dedup_step_trans st1 st2 st3 :
  dedup_step st1 st2 -> dedup_step st2 st3 -> dedup_step st1 st3.
Proof.
  intros H12 H23 logged H1.
  destruct (H12 _ H1) as (new1 & Hlog1 & Hnd1 & Hfresh1 & H2).
  destruct (H23 _ H2) as (new2 & Hlog2 & Hnd2 & Hfresh2 & H3).
  exists (new1 ++ new2). rewrite unexpected_keys_app. repeat split.
  - by rewrite Hlog2, Hlog1, app_assoc.
  - apply NoDup_app. repeat split; [done| |done].
    intros k Hk1 Hk2. apply (Hfresh2 k Hk2). apply elem_of_union_l.
    by apply elem_of_list_to_set.
  - intros k Hk. apply elem_of_app in Hk as [Hk|Hk]; [by apply Hfresh1|].
    intros Hin. apply (Hfresh2 k Hk). by apply elem_of_union_r.
  - rewrite H3, list_to_set_app_L. f_equal.
    rewrite (assoc_L (∪) (list_to_set (unexpected_keys new2))).
    by rewrite (comm_L (∪) (list_to_set (unexpected_keys new2))).
Qed.

Lemma convert_value_dedup value_str c n st :
  dedup_step st (_convert_value value_str c n st).2.
Proof.
  destruct value_str as [s|]; [|apply dedup_step_refl].
  rewrite convert_value_run.
  destruct (bool_decide (GroundTruthLoader_convert_value s = None) && truthy s);
    [|apply dedup_step_refl].
  destruct (_logged_unexpected_values st) as [logged|] eqn:Hst;
    [|apply dedup_step_refl].
  destruct (bool_decide ((c, s) ∈ logged)) eqn:Hin; [apply dedup_step_refl|].
  apply bool_decide_eq_false in Hin.
  intros logged' H'. rewrite Hst in H'. injection H' as <-.
  exists [UnexpectedValue s c n]. simpl. repeat split.
  - apply NoDup_singleton.
  - intros k Hk. apply list_elem_of_singleton in Hk as ->. done.
  - by rewrite (right_id_L ∅ (∪)).
Qed.

Lemma annotate_dedup cell n categories : forall ann st,
  dedup_step st (annotate cell n categories ann st).2.
Proof.
  induction categories as [|c rest IH]; intros ann st; [apply dedup_step_refl|].
  rewrite annotate_cons. destruct (cell c) as [text|e]; [|apply dedup_step_refl].
  pose proof (convert_value_dedup (Some text) c n st) as Hconv.
  destruct (_convert_value (Some text) c n st) as [[z|e] st1]; [|exact Hconv].
  eapply dedup_step_trans; [exact Hconv | apply IH].
Qed.

Lemma parse_row_dedup row t v cm n st : dedup_step st (_parse_row row t v cm n st).2.
Proof.
  destruct (PredictionLoader.video_id_of_row normalize_video_id row)
    as [[video_id|e]|] eqn:Hid.
  - destruct (PredictionLoader.truthy_id video_id) eqn:Htruthy.
    + destruct video_id as [video_id|]; [|discriminate]. simpl in Htruthy.
      apply truthy_ne in Htruthy.
      rewrite (parse_row_annotate _ _ _ _ _ _ _ Hid Htruthy).
      pose proof (annotate_dedup (read_cell v cm row) n ANNOTATION_CATEGORIES ∅ st)
        as Hann.
      by destruct (annotate (read_cell v cm row) n ANNOTATION_CATEGORIES ∅ st)
        as [[ann|e] st1].
    + rewrite (parse_row_skip_empty _ _ _ _ _ _ _ Hid Htruthy). apply dedup_step_refl.
  - rewrite (parse_row_raise_id _ _ _ _ _ _ _ Hid). apply dedup_step_refl.
  - rewrite (parse_row_skip_no_field _ _ _ _ _ _ Hid). apply dedup_step_refl.
Qed.

Lemma load_rows_dedup t v cm rows : forall n preds errs st,
  dedup_step st (load_rows t v cm n rows preds errs st).2.
Proof.
  induction rows as [|row rows IH]; intros n preds errs st; [apply dedup_step_refl|].
  rewrite load_rows_cons.
  pose proof (parse_row_dedup row t v cm n st) as Hrow.
  destruct (_parse_row row t v cm n st) as [[[pred|]|e] st1];
    (eapply dedup_step_trans; [exact Hrow | apply IH]).
Qed.


(** ** Case-insensitive columns *)

Lemma value_columns_cell_fallback cm row category actual_col :
  cm !! py_lower category = Some actual_col ->
  in_row (PredictionLoader.find_csv_col PredictionLoader.COLUMN_MAPPING category) row
    = false ->
  PredictionLoader.value_columns_cell cm row category
  = strip_method (row_get row actual_col "").
Proof.
  intros Hcm Hexact. unfold PredictionLoader.value_columns_cell.
  rewrite Hexact, Hcm.
  destruct (PredictionLoader.find_csv_col PredictionLoader.COLUMN_MAPPING category)
    as [col|]; [|done].
  simpl in Hexact. apply bool_decide_eq_false in Hexact.
  destruct (truthy col); [|done].
  rewrite (row_get_absent row col); [done|].
  destruct (fields row !! col) eqn:E; [|done]. destruct Hexact. by eexists.
Qed.

(** With the exact header absent, a header that matches the category
    case-insensitively resolves it. *)
Lemma case_insensitive_match_resolved columns category col st :
  category ∈ ANNOTATION_CATEGORIES ->
  PredictionLoader.expected_col category ∉ columns ->
  col ∈ columns ->
  category_key col = Some (py_lower category) ->
  exists actual_col cm st',
    _build_column_mapping columns st = (Ok cm, st')
    /\ cm !! py_lower category = Some actual_col
    /\ actual_col ∈ columns
    /\ category_key actual_col = Some (py_lower category)
    /\ ((forall c, c ∈ columns -> category_key c = Some (py_lower category) ->
           c = col) -> actual_col = col)
    /\ (exists new,
          logger st' = logger st ++ new
          /\ ColumnCaseMismatch category (PredictionLoader.expected_col category)
               actual_col ∈ new)
    /\ (forall row,
          in_row (PredictionLoader.find_csv_col PredictionLoader.COLUMN_MAPPING
                    category) row = false ->
          PredictionLoader.value_columns_cell cm row category
          = strip_method (row_get row actual_col "")).
Proof.
  intros Hcat Habsent Hcol Hkey.
  destruct (last_with_key_is_Some _ _ _ Hcol Hkey) as [actual_col Hlast].
  destruct (last_with_key_Some _ _ _ Hlast) as [Hin Hactual].
  assert (Hcm : foldl PredictionLoader.register_column ∅ columns
                  !! py_lower category = Some actual_col).
  { by rewrite foldl_register_lookup, Hlast. }
  eexists actual_col, _, _. split; [apply build_column_mapping_run|].
  split; [done|]. split; [done|]. split; [done|].
  split; [intros Honly; by apply Honly|]. split.
  - eexists. split; [reflexivity|]. by apply case_mismatch_logged.
  - intros row Hrow. by apply value_columns_cell_fallback.
Qed.

(** C7: the Column Resolver matches headers of the value-column shape
    without regard to case and keeps the header as it is written in the
    file.  When the exact header expected for a canonical category is
    absent and some header matches the category case-insensitively, the
    Column Map resolves the category to a header of the file that matches
    it case-insensitively (the last such header, hence that very header
    when it is the only match), a case-mismatch warning naming the
    category, the expected header and the header found is logged, and a
    row that lacks the exact column is read through the header found.  In
    particular, in a file whose only header for the category is
    [1_Value1_Power_dominance_values], [Power_Dominance] resolves to that
    header and the mismatch is logged. *)
Theorem column_resolver_case_insensitive :
  (forall columns category col st,
      category ∈ ANNOTATION_CATEGORIES ->
      PredictionLoader.expected_col category ∉ columns ->
      col ∈ columns ->
      category_key col = Some (py_lower category) ->
      exists actual_col cm st',
        _build_column_mapping columns st = (Ok cm, st')
        /\ cm !! py_lower category = Some actual_col
        /\ actual_col ∈ columns
        /\ category_key actual_col = Some (py_lower category)
        /\ ((forall c, c ∈ columns -> category_key c = Some (py_lower category) ->
               c = col) -> actual_col = col)
        /\ (exists new,
              logger st' = logger st ++ new
              /\ ColumnCaseMismatch category (PredictionLoader.expected_col category)
                   actual_col ∈ new)
        /\ (forall row,
              in_row (PredictionLoader.find_csv_col PredictionLoader.COLUMN_MAPPING
                        category) row = false ->
              PredictionLoader.value_columns_cell cm row category
              = strip_method (row_get row actual_col "")))
  /\ (forall columns st,
        "Power_Dominance" ∈ ANNOTATION_CATEGORIES ->
        "1_Value1_Power_dominance_values" ∈ columns ->
        "1_Value1_Power_Dominance_values" ∉ columns ->
        (forall c, c ∈ columns -> category_key c = Some "power_dominance" ->
           c = "1_Value1_Power_dominance_values") ->
        exists cm st' new,
          _build_column_mapping columns st = (Ok cm, st')
          /\ cm !! py_lower "Power_Dominance" = Some "1_Value1_Power_dominance_values"
          /\ logger st' = logger st ++ new
          /\ ColumnCaseMismatch "Power_Dominance" "1_Value1_Power_Dominance_values"
               "1_Value1_Power_dominance_values" ∈ new).
Proof.
  split; [apply case_insensitive_match_resolved|].
  intros columns st Hcat Hcol Habsent Honly.
  destruct (case_insensitive_match_resolved columns "Power_Dominance"
              "1_Value1_Power_dominance_values" st Hcat Habsent Hcol eq_refl)
    as (actual_col & cm & st' & Hrun & Hcm & _ & _ & Heq & (new & Hlog & Hnew) & _).
  rewrite (Heq Honly) in *. by exists cm, st', new.
Qed.

(** * Further properties of the loader *)

(** ** The Column Map, entry by entry *)

(** X1: every entry of the Column Map holds a header of the file, as
    written, that has the value-column shape; its key is the lower-cased
    category part of that header, and no later header of the file has the
    same key (the last header wins).  Every header of that shape has its
    key in the map, the map has at most as many entries as the file has
    headers, and building it leaves the dedup-log set alone. *)
Theorem column_map_entries columns st cm st' :
  _build_column_mapping columns st = (Ok cm, st') ->
  (forall key col, cm !! key = Some col ->
     exists before after,
       columns = before ++ col :: after
       /\ startswith col "1_Value1_" = true
       /\ endswith col "_values" = true
       /\ key = py_lower (slice 9 7 col)
       /\ Forall (fun c => category_key c <> Some key) after)
  /\ (forall col, col ∈ columns ->
        startswith col "1_Value1_" = true ->
        endswith col "_values" = true ->
        is_Some (cm !! py_lower (slice 9 7 col)))
  /\ (size cm <= length columns)%nat
  /\ _logged_unexpected_values st' = _logged_unexpected_values st.
Proof.
  rewrite build_column_mapping_run. intros [= <- <-].
  split; [|split; [|split]].
  - intros key col Hcm. rewrite foldl_register_lookup, lookup_empty in Hcm.
    destruct (last_with_key key columns) as [col'|] eqn:Hlast; [|done].
    injection Hcm as ->.
    destruct (last_with_key_split _ _ _ Hlast) as (before & after & -> & Hkey & Hafter).
    exists before, after. split; [done|].
    unfold category_key in Hkey.
    destruct (startswith col "1_Value1_"); [|done].
    destruct (endswith col "_values"); [|done].
    by injection Hkey as <-.
  - intros col Hin Hs He. rewrite foldl_register_lookup.
    destruct (last_with_key_is_Some (py_lower (slice 9 7 col)) columns col Hin)
      as [col' ->]; [|by eexists].
    unfold category_key. by rewrite Hs, He.
  - pose proof (foldl_register_size columns ∅) as H. by rewrite map_size_empty in H.
  - done.
Qed.

(** X2: when the file has the header expected for a category, written
    exactly, the Column Map resolves the category (to a header of the file
    that matches it case-insensitively) and [_build_column_mapping] logs
    nothing about that category: neither a case mismatch nor a missing
    column. *)
Theorem expected_header_resolves columns st category :
  PredictionLoader.expected_col category ∈ columns ->
  exists cm st' col new,
    _build_column_mapping columns st = (Ok cm, st')
    /\ cm !! py_lower category = Some col
    /\ col ∈ columns
    /\ category_key col = Some (py_lower category)
    /\ logger st' = logger st ++ new
    /\ Forall (fun r => r <> NoColumnFound category
                        /\ forall expected actual,
                             r <> ColumnCaseMismatch category expected actual) new.
Proof.
  intros Hexp.
  destruct (last_with_key_is_Some (py_lower category) columns _ Hexp
              (category_key_expected_col category)) as [col Hlast].
  destruct (last_with_key_Some _ _ _ Hlast) as [Hin Hkey].
  eexists _, _, col, _. split; [apply build_column_mapping_run|].
  split; [by rewrite foldl_register_lookup, Hlast|].
  split; [done|]. split; [done|]. split; [reflexivity|].
  apply Forall_forall. intros r Hr.
  apply case_mismatch_records_inv in Hr
    as (c & _ & Habsent & [[-> _] | (actual & -> & _)]);
    split; try congruence; intros expected actual'; congruence.
Qed.

(** X3: when no header of the file contains ["_values"], which is when
    [load] takes the file for the standard layout, the Column Map is empty
    and [_build_column_mapping] logs one "No column found" warning for
    every canonical category, in the order of the category list, whether or
    not the file has a column of the category's name. *)
Theorem standard_layout_maps_nothing columns st :
  existsb (contains "_values") columns = false ->
  _build_column_mapping columns st
  = (Ok ∅, append_log st (NoColumnFound <$> ANNOTATION_CATEGORIES)).
Proof.
  intros Hnone. rewrite build_column_mapping_run.
  assert (Hcols : Forall (fun col => contains "_values" col = false) columns).
  { apply Forall_forall. intros col Hin.
    destruct (contains "_values" col) eqn:Hc; [|done].
    assert (existsb (contains "_values") columns = true); [|congruence].
    apply existsb_exists. exists col. split; [by apply list_elem_of_In | done]. }
  rewrite Forall_forall in Hcols.
  rewrite foldl_register_no_shape.
  - rewrite case_mismatch_records_no_map; [done|].
    apply Forall_forall. intros c _ Hin.
    pose proof (category_key_contains _ _ (category_key_expected_col c)) as Hc.
    rewrite (Hcols _ Hin) in Hc. discriminate.
  - apply Forall_forall. intros col Hin.
    destruct (category_key col) as [key|] eqn:Hkey; [|done].
    apply category_key_contains in Hkey. rewrite (Hcols _ Hin) in Hkey. discriminate.
Qed.


(** ** Where a value-column cell is read from *)

Lemma find_csv_col_elem items category col :
  PredictionLoader.find_csv_col items category = Some col -> (col, category) ∈ items.
Proof.
  induction items as [|[col' cat'] rest IH]; [done|]. simpl.
  destruct (String.eqb_spec cat' category) as [->|Hne].
  - intros [= ->]. apply list_elem_of_here.
  - intros H. apply list_elem_of_further. by apply IH.
Qed.

Lemma COLUMN_MAPPING_keys_truthy category col :
  PredictionLoader.find_csv_col PredictionLoader.COLUMN_MAPPING category = Some col ->
  truthy col = true.
Proof.
  intros H. apply find_csv_col_elem in H.
  assert (Hall : Forall (fun item : string * string => truthy item.1 = true)
                   PredictionLoader.COLUMN_MAPPING) by (repeat constructor).
  rewrite Forall_forall in Hall. exact (Hall _ H).
Qed.

(** X4: in the value-columns layout the text of a category that
    [COLUMN_MAPPING] knows is read from the column the table names whenever
    the row has that column: its trimmed text is taken even when it is
    blank and the Column Map holds another header for the category, and a
    field left at [None] raises.  Only a row without that column is read
    through the Column Map, and gives the empty text when the map has no
    header for the category.  For a category the table does not know, the
    Column Map is consulted unless the row carries surplus fields (the
    [None] key of a long line), in which case the text is empty. *)
Theorem exact_column_shadows_column_map cm row category :
  (forall col s,
      PredictionLoader.find_csv_col PredictionLoader.COLUMN_MAPPING category = Some col ->
      fields row !! col = Some (Some s) ->
      PredictionLoader.value_columns_cell cm row category = Ok (py_strip s))
  /\ (forall col,
        PredictionLoader.find_csv_col PredictionLoader.COLUMN_MAPPING category = Some col ->
        fields row !! col = Some None ->
        PredictionLoader.value_columns_cell cm row category
        = Raise (AttributeError "'NoneType' object has no attribute 'strip'"))
  /\ (forall col,
        PredictionLoader.find_csv_col PredictionLoader.COLUMN_MAPPING category = Some col ->
        fields row !! col = None ->
        PredictionLoader.value_columns_cell cm row category
        = match cm !! py_lower category with
          | Some actual_col => strip_method (row_get row actual_col "")
          | None => Ok ""
          end)
  /\ (PredictionLoader.find_csv_col PredictionLoader.COLUMN_MAPPING category = None ->
      PredictionLoader.value_columns_cell cm row category
      = if in_row None row then Ok ""
        else match cm !! py_lower category with
             | Some actual_col => strip_method (row_get row actual_col "")
             | None => Ok ""
             end).
Proof.
  unfold PredictionLoader.value_columns_cell. repeat split.
  - intros col s Hcol Hcell. rewrite Hcol, (COLUMN_MAPPING_keys_truthy _ _ Hcol).
    unfold row_get. rewrite Hcell. simpl. rewrite Hcell.
    rewrite bool_decide_eq_true_2 by (by eexists). by rewrite andb_false_r.
  - intros col Hcol Hcell. rewrite Hcol, (COLUMN_MAPPING_keys_truthy _ _ Hcol).
    unfold row_get. by rewrite Hcell.
  - intros col Hcol Hcell. rewrite Hcol, (COLUMN_MAPPING_keys_truthy _ _ Hcol).
    unfold row_get at 1. rewrite Hcell. simpl. rewrite Hcell.
    rewrite bool_decide_eq_false_2 by (by intros [? ?]). simpl.
    by destruct (cm !! py_lower category).
  - intros Hcol. rewrite Hcol. simpl.
    destruct (bool_decide (is_Some (restkey row))); simpl; [done|].
    by destruct (cm !! py_lower category).
Qed.

(** ** The filename field *)

(** X5: a row whose ["filename"] field holds a non-empty text always gets
    a non-empty identifier when the Video ID Resolver returns: the
    resolver's result, or the raw filename when that result is empty.  A
    row whose ["filename"] field is empty (or [None]) and normalizes to the
    empty identifier is skipped whatever its ["1_Link1"] and ["video_id"]
    fields hold: the chain never falls through to them. *)
Theorem filename_field_decides row t v cm n st :
  (forall filename s,
      fields row !! "filename" = Some (Some filename) ->
      filename <> "" ->
      normalize_video_id (Some filename) = Ok s ->
      PredictionLoader.video_id_of_row normalize_video_id row
        = Some (Ok (Some (if truthy s then s else filename)))
      /\ (if truthy s then s else filename) <> ""
      /\ forall st', _parse_row row t v cm n st <> (Ok None, st'))
  /\ (forall filename,
        fields row !! "filename" = Some filename ->
        filename = None \/ filename = Some "" ->
        normalize_video_id filename = Ok "" ->
        _parse_row row t v cm n st = (Ok None, st)).
Proof.
  split.
  - intros filename s Hfield Hne Hnorm.
    assert (Hid : PredictionLoader.video_id_of_row normalize_video_id row
                  = Some (Ok (Some (if truthy s then s else filename)))).
    { unfold PredictionLoader.video_id_of_row, PredictionLoader._extract_video_id.
      rewrite Hfield, Hnorm. by destruct (truthy s). }
    assert (Hne' : (if truthy s then s else filename) <> "").
    { destruct (truthy s) eqn:Hs; [by apply truthy_ne | done]. }
    split; [done|]. split; [done|]. intros st'.
    rewrite (parse_row_annotate _ _ _ _ _ _ _ Hid Hne').
    by destruct (annotate (read_cell v cm row) n ANNOTATION_CATEGORIES ∅ st)
      as [[ann|e] st1].
  - intros filename Hfield Hempty Hnorm.
    apply (parse_row_skip_empty _ _ _ _ _ _ filename).
    + unfold PredictionLoader.video_id_of_row, PredictionLoader._extract_video_id.
      by rewrite Hfield, Hnorm.
    + by destruct Hempty as [-> | ->].
Qed.


(** ** Rows and records, in order *)

Lemma parse_row_skipped row t v cm n st :
  skipped normalize_video_id row = true -> _parse_row row t v cm n st = (Ok None, st).
Proof.
  unfold skipped. intros H.
  destruct (PredictionLoader.video_id_of_row normalize_video_id row)
    as [[video_id|e]|] eqn:Hid; [|done|].
  - apply (parse_row_skip_empty _ _ _ _ _ _ _ Hid). by apply negb_true_iff.
  - by apply parse_row_skip_no_field.
Qed.

Lemma parse_row_not_skipped row t v cm n st st' :
  skipped normalize_video_id row = false -> _parse_row row t v cm n st <> (Ok None, st').
Proof.
  unfold skipped. intros H.
  destruct (PredictionLoader.video_id_of_row normalize_video_id row)
    as [[video_id|e]|] eqn:Hid; [| |done].
  - apply negb_false_iff in H. destruct video_id as [video_id|]; [|done].
    simpl in H. apply truthy_ne in H.
    rewrite (parse_row_annotate _ _ _ _ _ _ _ Hid H).
    by destruct (annotate (read_cell v cm row) n ANNOTATION_CATEGORIES ∅ st)
      as [[ann|e] st1].
  - by rewrite (parse_row_raise_id _ _ _ _ _ _ _ Hid).
Qed.

Lemma load_rows_account t v cm rows : forall n preds errs st preds' errs' st',
  load_rows t v cm n rows preds errs st = (Ok (preds', errs'), st') ->
  exists kept more more_errs,
    preds' = preds ++ more
    /\ errs' = errs ++ more_errs
    /\ sublist kept rows
    /\ Forall2 (record_of v cm) kept more
    /\ (length more + length more_errs
        + length (List.filter (skipped normalize_video_id) rows) = length rows)%nat.
Proof.
  induction rows as [|row rows IH]; intros n preds errs st preds' errs' st' H.
  - simpl in H. injection H as <- <- <-. exists [], [], [].
    rewrite !app_nil_r. repeat split; constructor.
  - rewrite load_rows_cons in H. simpl List.filter.
    destruct (_parse_row row t v cm n st) as [[[pred|]|e] st0] eqn:Hrow.
    + destruct (IH _ _ _ _ _ _ _ H) as (kept & more & more_errs & -> & -> & Hsub & Hrec & Hn).
      assert (Hs : skipped normalize_video_id row = false).
      { destruct (skipped normalize_video_id row) eqn:Hs; [|done].
        rewrite (parse_row_skipped _ t v cm n st Hs) in Hrow. discriminate. }
      rewrite Hs. exists (row :: kept), (pred :: more), more_errs.
      rewrite <- app_assoc. split; [done|]. split; [done|].
      split; [by apply sublist_skip|].
      split; [constructor; [by eapply parse_row_inv | done]|]. simpl. lia.
    + destruct (IH _ _ _ _ _ _ _ H) as (kept & more & more_errs & -> & -> & Hsub & Hrec & Hn).
      assert (Hs : skipped normalize_video_id row = true).
      { destruct (skipped normalize_video_id row) eqn:Hs; [done|].
        by destruct (parse_row_not_skipped row t v cm n st st0 Hs). }
      rewrite Hs. exists kept, more, more_errs.
      split; [done|]. split; [done|]. split; [by apply sublist_cons|].
      split; [done|]. simpl. lia.
    + destruct (IH _ _ _ _ _ _ _ H) as (kept & more & more_errs & -> & -> & Hsub & Hrec & Hn).
      assert (Hs : skipped normalize_video_id row = false).
      { destruct (skipped normalize_video_id row) eqn:Hs; [|done].
        rewrite (parse_row_skipped _ t v cm n st Hs) in Hrow. discriminate. }
      rewrite Hs. exists kept, more, (PredictionLoader.parse_error n e :: more_errs).
      rewrite <- app_assoc. split; [done|]. split; [done|].
      split; [by apply sublist_cons|]. split; [done|].
      simpl length. lia.
Qed.

(** X6: whatever the file holds, the records that [load] returns are the
    parses of a subsequence of its data rows, one record per row of the
    subsequence and in the order of the file: no record is invented,
    duplicated or moved. *)
Theorem records_follow_file_order csv_path st ps st' f :
  load csv_path st = (Ok ps, st') ->
  filesystem csv_path = Some f ->
  exists kept,
    sublist kept (data_rows f)
    /\ Forall2 (record_of (has_value_columns_of f) (column_mapping_of f)) kept
         (PredictionSet.predictions ps).
Proof.
  intros Hload Hf.
  apply load_inv in Hload as (f' & preds & errs & st2 & Hf' & Hloop & -> & _).
  rewrite Hf in Hf'. injection Hf' as <-.
  apply load_rows_account in Hloop as (kept & more & more_errs & -> & _ & Hsub & Hrec & _).
  by exists kept.
Qed.

(** X7: every data row is accounted for once: it gives a record, or a
    diagnostic, or it is skipped.  The number of records ([total_count]),
    the number of diagnostics and the number of skipped rows add up to the
    number of data rows; the log of the load ends with the report on these
    diagnostics (nothing when there is none; else their count and the first
    five) followed by the info record that names [total_count] and the
    path. *)
Theorem rows_are_accounted_for csv_path st ps st' f :
  load csv_path st = (Ok ps, st') ->
  filesystem csv_path = Some f ->
  exists diagnostics earlier,
    (PredictionSet.total_count ps + length diagnostics
     + length (List.filter (skipped normalize_video_id) (data_rows f))
     = length (data_rows f))%nat
    /\ logger st'
       = earlier
         ++ match diagnostics with
            | [] => []
            | _ => ParseErrors (length diagnostics)
                   :: (ParseErrorLine <$> take 5 diagnostics)
            end
         ++ [Loaded (PredictionSet.total_count ps) csv_path].
Proof.
  intros Hload Hf.
  apply load_inv in Hload as (f' & preds & errs & st2 & Hf' & Hloop & -> & ->).
  rewrite Hf in Hf'. injection Hf' as <-.
  apply load_rows_account in Hloop as (kept & more & more_errs & -> & -> & _ & _ & Hn).
  exists more_errs, (logger st2). split; [exact Hn | reflexivity].
Qed.


(** ** The loader's history *)

Lemma log_blind_ret {A} (a : A) : log_blind (ret a).
Proof. by intros l st. Qed.

Lemma log_blind_lift {A} (r : Res A) : log_blind (lift r).
Proof. by intros l st. Qed.

Lemma log_blind_log r : log_blind (log r).
Proof.
  intros l st. unfold log, prefix_log. simpl. by rewrite app_assoc.
Qed.

Lemma log_blind_bind {A B} (m : M A) (k : A -> M B) :
  log_blind m -> (forall a, log_blind (k a)) -> log_blind (bind m k).
Proof.
  intros Hm Hk l st. unfold bind. rewrite Hm.
  destruct (m st) as [[a|e] st1]; simpl; [apply Hk | done].
Qed.

Lemma log_blind_try_except {A} (body : M A) (handler : PyExc -> M A) :
  log_blind body -> (forall e, log_blind (handler e)) ->
  log_blind (try_except body handler).
Proof.
  intros Hb Hh l st. unfold try_except. rewrite Hb.
  destruct (body st) as [[a|e] st1]; simpl; [done | apply Hh].
Qed.

Lemma log_blind_log_each records : log_blind (log_each records).
Proof.
  induction records as [|r rest IH]; [apply log_blind_ret|].
  apply log_blind_bind; [apply log_blind_log | by intros _].
Qed.

Lemma log_blind_log_case_mismatches columns cm categories :
  log_blind (PredictionLoader.log_case_mismatches columns cm categories).
Proof.
  induction categories as [|c rest IH]; [apply log_blind_ret|].
  apply log_blind_bind; [|by intros _].
  unfold PredictionLoader.log_case_mismatch.
  destruct (bool_decide (PredictionLoader.expected_col c ∈ columns));
    [apply log_blind_ret|].
  destruct (cm !! py_lower c); apply log_blind_log.
Qed.

Lemma log_blind_convert_value value_str c n : log_blind (_convert_value value_str c n).
Proof.
  intros l st. destruct value_str as [s|]; [|done].
  rewrite !convert_value_run. simpl.
  destruct (bool_decide (GroundTruthLoader_convert_value s = None) && truthy s); [|done].
  destruct (_logged_unexpected_values st) as [logged|]; [|done].
  destruct (bool_decide ((c, s) ∈ logged)); [done|].
  unfold prefix_log. simpl. by rewrite app_assoc.
Qed.

Lemma log_blind_annotate cell n categories : forall ann,
  log_blind (annotate cell n categories ann).
Proof.
  induction categories as [|c rest IH]; intros ann; [apply log_blind_ret|].
  apply log_blind_bind; [apply log_blind_lift|]. intros text.
  apply log_blind_bind; [apply log_blind_convert_value|]. intros z. apply IH.
Qed.

Lemma log_blind_parse_row row t v cm n : log_blind (_parse_row row t v cm n).
Proof.
  unfold PredictionLoader._parse_row.
  destruct (PredictionLoader.video_id_of_row normalize_video_id row) as [extracted|];
    [|apply log_blind_ret].
  apply log_blind_bind; [apply log_blind_lift|]. intros video_id.
  destruct (negb (PredictionLoader.truthy_id video_id)); [apply log_blind_ret|].
  apply log_blind_bind; [|intros; apply log_blind_ret].
  destruct v; apply log_blind_annotate.
Qed.

Lemma log_blind_load_rows t v cm rows : forall n preds errs,
  log_blind (load_rows t v cm n rows preds errs).
Proof.
  induction rows as [|row rows IH]; intros n preds errs; [apply log_blind_ret|].
  apply log_blind_bind; [|intros acc; apply IH].
  apply log_blind_try_except; [|intros; apply log_blind_ret].
  apply log_blind_bind; [apply log_blind_parse_row | intros; apply log_blind_ret].
Qed.

Lemma log_blind_report_parse_errors errs :
  log_blind (PredictionLoader.report_parse_errors errs).
Proof.
  destruct errs as [|e errs]; [apply log_blind_ret|].
  apply log_blind_bind; [apply log_blind_log | intros _; apply log_blind_log_each].
Qed.

(** Resetting the dedup-log set and then running a computation that is
    blind to the log forgets the earlier state. *)
Lemma reset_then_log_blind {A} (rest : M A) st :
  log_blind rest ->
  bind (fun st0 => (Ok tt, {| _logged_unexpected_values := Some ∅;
                              logger := logger st0 |}))
    (fun _ => rest) st
  = ((bind (fun st0 => (Ok tt, {| _logged_unexpected_values := Some ∅;
                                  logger := logger st0 |}))
        (fun _ => rest) never_loaded).1,
     prefix_log (logger st)
       (bind (fun st0 => (Ok tt, {| _logged_unexpected_values := Some ∅;
                                    logger := logger st0 |}))
          (fun _ => rest) never_loaded).2).
Proof.
  intros Hrest. unfold bind. simpl.
  specialize (Hrest (logger st) {| _logged_unexpected_values := Some ∅; logger := [] |}).
  unfold prefix_log at 1 in Hrest. simpl in Hrest. by rewrite app_nil_r in Hrest.
Qed.

(** X8: on a file that opens and is read to its end, [load] does not
    depend on what the loader did before.  Whatever the earlier log and dedup-log set, [load] returns the
    result it returns on a loader that never loaded anything, appends the
    same records to the log and leaves the same dedup-log set: the set is
    reset at the start of every load, so a pair warned about in an earlier
    load is warned about again, and the earlier log is kept as it was. *)
Theorem load_forgets_history csv_path f st :
  filesystem csv_path = Some f ->
  load csv_path st
  = ((load csv_path never_loaded).1,
     prefix_log (logger st) (load csv_path never_loaded).2).
Proof.
  intros Hf. unfold PredictionLoader.load. rewrite Hf.
  apply reset_then_log_blind.
  apply log_blind_bind; [apply log_blind_log|]. intros _.
  apply log_blind_bind.
  { apply log_blind_bind; [apply log_blind_log_case_mismatches|].
    intros _. apply log_blind_ret. }
  intros cm.
  apply log_blind_bind; [apply log_blind_log|]. intros _.
  apply log_blind_bind; [apply log_blind_load_rows|]. intros acc.
  apply log_blind_bind; [apply log_blind_report_parse_errors|]. intros _.
  apply log_blind_bind; [apply log_blind_log|]. intros _. apply log_blind_ret.
Qed.


(** ** Every unexpected value is warned about *)

Abbreviation unrecognized_cells_in :=
  (unrecognized_cells_in ANNOTATION_CATEGORIES GroundTruthLoader_convert_value).

Lemma dedup_step_grows st st' logged :
  dedup_step st st' ->
  _logged_unexpected_values st = Some logged ->
  exists logged', _logged_unexpected_values st' = Some logged' /\ logged ⊆ logged'.
Proof.
  intros Hstep Hst. destruct (Hstep _ Hst) as (new & _ & _ & _ & Hst').
  eexists. split; [exact Hst'|]. apply union_subseteq_r.
Qed.

Lemma convert_value_logged s c n st logged z st' :
  _logged_unexpected_values st = Some logged ->
  _convert_value (Some s) c n st = (Ok z, st') ->
  exists logged',
    _logged_unexpected_values st' = Some logged'
    /\ logged ⊆ logged'
    /\ (GroundTruthLoader_convert_value s = None -> s <> "" -> (c, s) ∈ logged').
Proof.
  intros Hst. rewrite convert_value_run, Hst.
  destruct (GroundTruthLoader_convert_value s) as [z'|] eqn:Hs; simpl.
  - intros [= <- <-]. by exists logged.
  - destruct (truthy s) eqn:Ht; simpl.
    + destruct (bool_decide ((c, s) ∈ logged)) eqn:Hin; intros [= <- <-].
      * apply bool_decide_eq_true in Hin. by exists logged.
      * eexists. split; [reflexivity|]. split; [apply union_subseteq_r|].
        intros _ _. apply elem_of_union_l. by apply elem_of_singleton.
    + intros [= <- <-]. exists logged. split; [done|]. split; [done|].
      intros _ Hne. apply truthy_ne in Hne. congruence.
Qed.

Lemma annotate_logged cell n categories : forall ann st logged ann' st',
  _logged_unexpected_values st = Some logged ->
  annotate cell n categories ann st = (Ok ann', st') ->
  exists logged',
    _logged_unexpected_values st' = Some logged'
    /\ logged ⊆ logged'
    /\ forall c text, c ∈ categories -> cell c = Ok text ->
         GroundTruthLoader_convert_value text = None -> text <> "" ->
         (c, text) ∈ logged'.
Proof.
  induction categories as [|c0 rest IH]; intros ann st logged ann' st' Hst H.
  - simpl in H. injection H as <- <-. exists logged. split; [done|]. split; [done|].
    intros c text Hc. by apply elem_of_nil in Hc.
  - rewrite annotate_cons in H. destruct (cell c0) as [text0|e] eqn:Hcell; [|done].
    destruct (_convert_value (Some text0) c0 n st) as [[z|e] st1] eqn:Hconv; [|done].
    destruct (convert_value_logged _ _ _ _ _ _ _ Hst Hconv) as (logged1 & Hst1 & Hsub1 & Hkey).
    destruct (IH _ _ _ _ _ Hst1 H) as (logged' & Hst' & Hsub & Hrest).
    exists logged'. split; [done|]. split; [by etransitivity|].
    intros c text Hc Hread Hnone Hne. apply elem_of_cons in Hc as [->|Hc].
    + rewrite Hcell in Hread. injection Hread as <-. apply Hsub. by apply Hkey.
    + by eapply Hrest.
Qed.

Lemma parse_row_logged row t v cm n st logged r st' :
  _logged_unexpected_values st = Some logged ->
  _parse_row row t v cm n st = (Ok (Some r), st') ->
  exists logged',
    _logged_unexpected_values st' = Some logged'
    /\ logged ⊆ logged'
    /\ unrecognized_cells_in v cm row logged'.
Proof.
  intros Hst H. pose proof (parse_row_inv _ _ _ _ _ _ _ _ H) as (Hid & Hne & _).
  rewrite (parse_row_annotate _ _ _ _ _ _ _ Hid Hne) in H.
  destruct (annotate (read_cell v cm row) n ANNOTATION_CATEGORIES ∅ st)
    as [[ann|e] st1] eqn:Hann; [|done].
  injection H as _ <-.
  destruct (annotate_logged _ _ _ _ _ _ _ _ Hst Hann) as (logged' & Hst' & Hsub & Hcells).
  exists logged'. split; [done|]. split; [done|].
  intros c text Hc. by apply Hcells.
Qed.

Lemma load_rows_warned t v cm rows : forall n preds errs st logged preds' errs' st',
  _logged_unexpected_values st = Some logged ->
  load_rows t v cm n rows preds errs st = (Ok (preds', errs'), st') ->
  exists logged' kept more,
    _logged_unexpected_values st' = Some logged'
    /\ logged ⊆ logged'
    /\ preds' = preds ++ more
    /\ sublist kept rows
    /\ Forall2 (fun row r => record_of v cm row r
                             /\ unrecognized_cells_in v cm row logged') kept more.
Proof.
  induction rows as [|row rows IH];
    intros n preds errs st logged preds' errs' st' Hst H.
  - simpl in H. injection H as <- <- <-. exists logged, [], [].
    rewrite app_nil_r. split; [done|]. split; [done|]. split; [done|].
    split; constructor.
  - rewrite load_rows_cons in H.
    pose proof (parse_row_dedup row t v cm n st) as Hstep.
    destruct (_parse_row row t v cm n st) as [[[pred|]|e] st0] eqn:Hrow;
      simpl in Hstep.
    + destruct (parse_row_logged _ _ _ _ _ _ _ _ _ Hst Hrow)
        as (logged1 & Hst1 & Hsub1 & Hcells).
      destruct (IH _ _ _ _ _ _ _ _ Hst1 H)
        as (logged' & kept & more & Hst' & Hsub & -> & Hkept & Hall).
      exists logged', (row :: kept), (pred :: more).
      split; [done|]. split; [by etransitivity|].
      split; [by rewrite <- app_assoc|]. split; [by apply sublist_skip|].
      constructor; [|done]. split; [by eapply parse_row_inv|].
      intros c text Hc Hread Hnone Hne. apply Hsub. by eapply Hcells.
    + destruct (dedup_step_grows _ _ _ Hstep Hst) as (logged1 & Hst1 & Hsub1).
      destruct (IH _ _ _ _ _ _ _ _ Hst1 H)
        as (logged' & kept & more & Hst' & Hsub & -> & Hkept & Hall).
      exists logged', kept, more.
      split; [done|]. split; [by etransitivity|]. split; [done|].
      split; [by apply sublist_cons|]. done.
    + destruct (dedup_step_grows _ _ _ Hstep Hst) as (logged1 & Hst1 & Hsub1).
      destruct (IH _ _ _ _ _ _ _ _ Hst1 H)
        as (logged' & kept & more & Hst' & Hsub & -> & Hkept & Hall).
      exists logged', kept, more.
      split; [done|]. split; [by etransitivity|]. split; [done|].
      split; [by apply sublist_cons|]. done.
Qed.

(** What a successful [load] appended to the log, and the dedup-log set in
    which its row loop ended. *)
Lemma load_inv_keys csv_path st ps st' :
  load csv_path st = (Ok ps, st') ->
  exists f errs st2 new,
    filesystem csv_path = Some f
    /\ load_rows (is_tiktok_format_of f) (has_value_columns_of f) (column_mapping_of f)
         2 (data_rows f) [] [] (loop_start f st)
       = (Ok (PredictionSet.predictions ps, errs), st2)
    /\ logger st' = logger st ++ new
    /\ _logged_unexpected_values st2 = Some (list_to_set (unexpected_keys new)).
Proof.
  intros Hload.
  apply load_inv in Hload as (f & preds & errs & st2 & Hf & Hloop & -> & ->).
  pose proof (load_rows_dedup (is_tiktok_format_of f) (has_value_columns_of f)
                (column_mapping_of f) (data_rows f) 2%nat [] [] (loop_start f st))
    as Hstep.
  rewrite Hloop in Hstep. simpl in Hstep.
  destruct (Hstep ∅ eq_refl) as (new & Hlog & _ & _ & Hset).
  set (header :=
         DetectedFormat (is_tiktok_format_of f) (has_value_columns_of f)
         :: case_mismatch_records (columns_of f) (column_mapping_of f)
              ANNOTATION_CATEGORIES
         ++ [BuiltColumnMapping (size (column_mapping_of f))]).
  assert (Hstart : logger (loop_start f st) = logger st ++ header) by done.
  assert (Hheader : unexpected_keys header = []).
  { unfold header.
    change (unexpected_keys (DetectedFormat ?a ?b :: ?l)) with (unexpected_keys l).
    by rewrite unexpected_keys_app, unexpected_keys_case_mismatch. }
  clearbody header.
  exists f, errs, st2,
    (header ++ new ++ report_records errs ++ [Loaded (length preds) csv_path]).
  split; [done|]. split; [done|].
  rewrite !unexpected_keys_app, Hheader, unexpected_keys_report.
  cbn [app unexpected_keys omap list_omap]. rewrite app_nil_r.
  unfold append_log; cbn [logger _logged_unexpected_values].
  split.
  - by rewrite Hlog, Hstart, <- !app_assoc.
  - by rewrite Hset, (right_id_L ∅ (∪)).
Qed.

(** X9: no unexpected value of a returned record goes unreported.  The
    records that [load] returns are, one for one and in order, the parses
    of a subsequence of the data rows of the file at [csv_path]; and for
    every such row and every category whose trimmed text in that row is
    non-empty and not recognized by the Value Normalizer, the records that
    this load appended to the log hold a warning for that (category, text)
    pair. *)
Theorem unexpected_value_is_warned csv_path st ps st' :
  load csv_path st = (Ok ps, st') ->
  exists f kept new,
    filesystem csv_path = Some f
    /\ sublist kept (data_rows f)
    /\ logger st' = logger st ++ new
    /\ Forall2
         (fun row r =>
            record_of (has_value_columns_of f) (column_mapping_of f) row r
            /\ forall c text,
                 c ∈ ANNOTATION_CATEGORIES ->
                 read_cell (has_value_columns_of f) (column_mapping_of f) row c
                 = Ok text ->
                 GroundTruthLoader_convert_value text = None ->
                 text <> "" ->
                 (c, text) ∈ unexpected_keys new)
         kept (PredictionSet.predictions ps).
Proof.
  intros Hload.
  apply load_inv_keys in Hload as (f & errs & st2 & new & Hf & Hloop & Hlog & Hset).
  assert (Hstart : _logged_unexpected_values (loop_start f st) = Some ∅) by done.
  destruct (load_rows_warned _ _ _ _ _ _ _ _ _ _ _ _ Hstart Hloop)
    as (logged' & kept & more & Hst2 & _ & Hmore & Hkept & Hall).
  rewrite Hset in Hst2. injection Hst2 as <-.
  simpl in Hmore. subst more.
  exists f, kept, new. split; [done|]. split; [done|]. split; [done|].
  eapply Forall2_impl; [exact Hall|].
  intros row r (Hrec & Hcells). split; [done|].
  intros c text Hc Hread Hnone Hne.
  apply (elem_of_list_to_set (C := gset (string * string))). by eapply Hcells.
Qed.


(** ** What every returned record looks like *)

Lemma load_records_parsed csv_path st ps st' f :
  load csv_path st = (Ok ps, st') ->
  filesystem csv_path = Some f ->
  Forall (fun r => exists row, row ∈ data_rows f
            /\ record_of (has_value_columns_of f) (column_mapping_of f) row r)
    (PredictionSet.predictions ps).
Proof.
  intros Hload Hf.
  apply load_inv in Hload as (f' & preds & errs & st2 & Hf' & Hloop & -> & _).
  rewrite Hf in Hf'. injection Hf' as <-. simpl.
  eapply load_rows_Forall; [|constructor|exact Hloop].
  intros row n0 st0 pred st0' Hin Hrow. exists row. split; [done|].
  by eapply parse_row_inv.
Qed.

(** X10: every record that [load] returns has a non-empty video
    identifier, is marked successful, carries no error message and has
    inference time zero; the model name of the set is the loader's. *)
Theorem returned_records_are_well_formed csv_path st ps st' :
  load csv_path st = (Ok ps, st') ->
  PredictionSet.model_name ps = self_model_name
  /\ Forall (fun r => PredictionResult.video_id r <> ""
                      /\ PredictionResult.success r = true
                      /\ PredictionResult.error_message r = None
                      /\ PredictionResult.inference_time r = 0%Q)
       (PredictionSet.predictions ps).
Proof.
  intros Hload.
  pose proof (load_inv _ _ _ _ Hload) as (f & preds & errs & st2 & Hf & _ & Hps & _).
  split; [by rewrite Hps|].
  eapply Forall_impl; [exact (load_records_parsed _ _ _ _ _ Hload Hf)|].
  intros r (row & _ & _ & Hne & _ & _ & Hs & He & Ht). auto.
Qed.

(** X11: the loader stores no code of its own making other than 0: every
    entry of a returned record belongs to a canonical category, and its
    value is either 0 or a code that the Value Normalizer returns on some
    text. *)
Theorem stored_values_come_from_normalizer csv_path st ps st' r c z :
  load csv_path st = (Ok ps, st') ->
  r ∈ PredictionSet.predictions ps ->
  PredictionResult.predictions r !! c = Some z ->
  c ∈ ANNOTATION_CATEGORIES
  /\ (z = 0 \/ exists text, GroundTruthLoader_convert_value text = Some z).
Proof.
  intros Hload Hr Hz.
  pose proof (load_inv _ _ _ _ Hload) as (f & preds & errs & st2 & Hf & _).
  pose proof (load_records_parsed _ _ _ _ _ Hload Hf) as Hall.
  rewrite Forall_forall in Hall.
  destruct (Hall r Hr) as (row & _ & _ & _ & Hdom & Hcells & _).
  assert (Hc : c ∈ ANNOTATION_CATEGORIES).
  { apply (elem_of_list_to_set (C := gset string)). rewrite <- Hdom.
    apply elem_of_dom. by eexists. }
  split; [done|].
  destruct (Hcells c Hc) as (text & _ & Hval). rewrite Hval in Hz. injection Hz as <-.
  destruct (GroundTruthLoader_convert_value text) as [z|] eqn:Htext; [|by left].
  right. by exists text.
Qed.

(** ** The empty file *)

(** X12: a file with no header and no data row loads without error: [load]
    returns an empty Prediction Set with all counters at 0, resets the
    dedup-log set, and logs the detected format (neither linked nor
    value-columns), a "No column found" warning for every canonical
    category, the size 0 of the Column Map and the count of 0 predictions;
    no parse error is reported. *)
Theorem empty_file_loads_empty csv_path f st :
  filesystem csv_path = Some f ->
  fieldnames f = None ->
  data_rows f = [] ->
  load csv_path st
  = (Ok {| PredictionSet.model_name := self_model_name;
           PredictionSet.predictions := [];
           PredictionSet.total_count := 0;
           PredictionSet.success_count := 0;
           PredictionSet.failure_count := 0;
           PredictionSet.failed_video_ids := [] |},
     {| _logged_unexpected_values := Some ∅;
        logger := logger st
                  ++ [DetectedFormat false false]
                  ++ (NoColumnFound <$> ANNOTATION_CATEGORIES)
                  ++ [BuiltColumnMapping 0; Loaded 0 csv_path] |}).
Proof.
  intros Hf Hnames Hrows.
  assert (Hloop : load_rows (is_tiktok_format_of f) (has_value_columns_of f)
                    (column_mapping_of f) 2 (data_rows f) [] [] (loop_start f st)
                  = (Ok ([], []), loop_start f st)) by (by rewrite Hrows).
  rewrite (load_run _ _ _ _ _ _ Hf Hloop).
  unfold prediction_set, append_log, loop_start, is_tiktok_format_of,
    has_value_columns_of, column_mapping_of, columns_of.
  rewrite Hnames. simpl.
  rewrite case_mismatch_records_no_map.
  - rewrite map_size_empty, <- !app_assoc. simpl. by rewrite <- !app_assoc.
  - apply Forall_forall. intros c _ Hin. by apply elem_of_nil in Hin.
Qed.


(** ** Every warning is justified *)

Abbreviation warning_justified :=
  (warning_justified ANNOTATION_CATEGORIES GroundTruthLoader_convert_value).

Lemma convert_value_emits s c n st :
  exists new,
    logger (_convert_value (Some s) c n st).2 = logger st ++ new
    /\ Forall (fun r => r = UnexpectedValue s c n
                        /\ GroundTruthLoader_convert_value s = None /\ s <> "") new.
Proof.
  rewrite convert_value_run.
  destruct (GroundTruthLoader_convert_value s) as [z|] eqn:Hs; simpl;
    [exists []; by rewrite app_nil_r|].
  destruct (truthy s) eqn:Ht; simpl; [|exists []; by rewrite app_nil_r].
  destruct (_logged_unexpected_values st) as [logged|];
    [|exists []; by rewrite app_nil_r].
  destruct (bool_decide ((c, s) ∈ logged)); [exists []; by rewrite app_nil_r|].
  exists [UnexpectedValue s c n]. split; [done|].
  constructor; [|constructor]. split; [done|]. split; [done|]. by apply truthy_ne.
Qed.

Lemma annotate_emits cell n categories : forall ann st,
  exists new,
    logger (annotate cell n categories ann st).2 = logger st ++ new
    /\ Forall (fun r => exists c text,
                 r = UnexpectedValue text c n /\ c ∈ categories /\ cell c = Ok text
                 /\ GroundTruthLoader_convert_value text = None /\ text <> "") new.
Proof.
  induction categories as [|c0 rest IH]; intros ann st.
  - exists []. by rewrite app_nil_r.
  - rewrite annotate_cons. destruct (cell c0) as [text|e] eqn:Hcell;
      [|exists []; by rewrite app_nil_r].
    destruct (convert_value_emits text c0 n st) as (new1 & Hlog1 & Hnew1).
    assert (Hnew1' : Forall (fun r => exists c text',
                 r = UnexpectedValue text' c n /\ c ∈ c0 :: rest /\ cell c = Ok text'
                 /\ GroundTruthLoader_convert_value text' = None /\ text' <> "") new1).
    { eapply Forall_impl; [exact Hnew1|]. intros r (-> & Hnone & Hne).
      exists c0, text. repeat split; try done. apply list_elem_of_here. }
    destruct (_convert_value (Some text) c0 n st) as [[z|e] st1]; simpl in Hlog1;
      [|by exists new1].
    destruct (IH (<[c0 := z]> ann) st1) as (new2 & Hlog2 & Hnew2).
    exists (new1 ++ new2). split; [by rewrite Hlog2, Hlog1, app_assoc|].
    apply Forall_app. split; [done|].
    eapply Forall_impl; [exact Hnew2|].
    intros r (c & text' & -> & Hc & Hrest). exists c, text'.
    split; [done|]. split; [by apply list_elem_of_further | done].
Qed.

Lemma parse_row_emits row t v cm n st :
  exists new,
    logger (_parse_row row t v cm n st).2 = logger st ++ new
    /\ Forall (fun r => exists c text,
                 r = UnexpectedValue text c n /\ c ∈ ANNOTATION_CATEGORIES
                 /\ read_cell v cm row c = Ok text
                 /\ GroundTruthLoader_convert_value text = None /\ text <> "") new.
Proof.
  destruct (PredictionLoader.video_id_of_row normalize_video_id row)
    as [[video_id|e]|] eqn:Hid.
  - destruct (PredictionLoader.truthy_id video_id) eqn:Htruthy.
    + destruct video_id as [video_id|]; [|discriminate]. simpl in Htruthy.
      apply truthy_ne in Htruthy.
      rewrite (parse_row_annotate _ _ _ _ _ _ _ Hid Htruthy).
      destruct (annotate_emits (read_cell v cm row) n ANNOTATION_CATEGORIES ∅ st)
        as (new & Hlog & Hnew).
      exists new. split; [|done].
      by destruct (annotate (read_cell v cm row) n ANNOTATION_CATEGORIES ∅ st)
        as [[ann|e] st1].
    + rewrite (parse_row_skip_empty _ _ _ _ _ _ _ Hid Htruthy).
      exists []. by rewrite app_nil_r.
  - rewrite (parse_row_raise_id _ _ _ _ _ _ _ Hid). exists []. by rewrite app_nil_r.
  - rewrite (parse_row_skip_no_field _ _ _ _ _ _ Hid). exists []. by rewrite app_nil_r.
Qed.

Lemma load_rows_emits t v cm rows : forall done_rows preds errs st,
  exists new,
    logger (load_rows t v cm (2 + length done_rows) rows preds errs st).2
      = logger st ++ new
    /\ Forall (warning_justified v cm (done_rows ++ rows)) new.
Proof.
  induction rows as [|row rows IH]; intros done_rows preds errs st.
  - exists []. by rewrite app_nil_r.
  - rewrite load_rows_cons.
    destruct (parse_row_emits row t v cm (2 + length done_rows) st)
      as (new1 & Hlog1 & Hnew1).
    assert (Hnew1' : Forall (warning_justified v cm (done_rows ++ row :: rows)) new1).
    { eapply Forall_impl; [exact Hnew1|].
      intros r (c & text & -> & Hc & Hread & Hnone & Hne). exists row.
      split; [lia|]. split; [|done].
      replace (2 + length done_rows - 2)%nat with (length done_rows) by lia.
      by rewrite list_lookup_middle. }
    assert (Hnext : forall preds' errs' st1,
              logger st1 = logger st ++ new1 ->
              exists new,
                logger (load_rows t v cm (S (2 + length done_rows)) rows preds' errs'
                          st1).2 = logger st ++ new
                /\ Forall (warning_justified v cm (done_rows ++ row :: rows)) new).
    { intros preds' errs' st1 Hst1.
      destruct (IH (done_rows ++ [row]) preds' errs' st1) as (new2 & Hlog2 & Hnew2).
      rewrite length_app in Hlog2. simpl in Hlog2.
      replace (S (S (length done_rows + 1))) with (S (2 + length done_rows)) in Hlog2
        by lia.
      rewrite <- app_assoc in Hnew2. simpl in Hnew2.
      exists (new1 ++ new2). split; [by rewrite Hlog2, Hst1, app_assoc|].
      by apply Forall_app. }
    destruct (_parse_row row t v cm (2 + length done_rows) st) as [[[pred|]|e] st1];
      simpl in Hlog1; by apply Hnext.
Qed.



(** ** A row that raises, seen from [load] *)



End LoaderFacts.

(** * The properties on the sample files *)

(** The counters on [short.csv], where the second of the three rows raises
    and is dropped. *)
Lemma load_counts_witness :
  length (data_rows Sample.short_row_file) = 3%nat
  /\ PredictionSet.total_count (SampleRuns.loaded "short.csv") = 2%nat
  /\ PredictionSet.total_count (SampleRuns.loaded "short.csv")
     = length (PredictionSet.predictions (SampleRuns.loaded "short.csv"))
  /\ PredictionSet.success_count (SampleRuns.loaded "short.csv")
     = length (PredictionSet.predictions (SampleRuns.loaded "short.csv"))
  /\ PredictionSet.failure_count (SampleRuns.loaded "short.csv") = 0%nat
  /\ PredictionSet.failed_video_ids (SampleRuns.loaded "short.csv") = [].
Proof.
  split; [reflexivity|]. split; [vm_compute; reflexivity|].
  apply (load_counts Sample.ANNOTATION_CATEGORIES Sample.convert_value
           Sample.normalize_video_id Sample.filesystem Sample.unreadable "model" "short.csv"
           Sample.fresh (SampleRuns.loaded "short.csv")
           (SampleRuns.state_after "short.csv")).
  vm_compute. reflexivity.
Defined.



(** Rows with all three identifier fields, with a link and an id, with an
    id only, with an empty filename, and with no identifier field. *)
Lemma identifier_priority_and_skip_witness :
  (PredictionLoader._parse_row Sample.ANNOTATION_CATEGORIES Sample.convert_value
     Sample.normalize_video_id SampleRuns.all_ids_row false false ∅ 2
     SampleRuns.loop_state
   = record_with_id Sample.ANNOTATION_CATEGORIES Sample.convert_value "alex_1"
       SampleRuns.all_ids_row false ∅ 2 SampleRuns.loop_state
   /\ SampleRuns.parsed_id SampleRuns.all_ids_row = Ok (Some "alex_1"))
  /\ (PredictionLoader._parse_row Sample.ANNOTATION_CATEGORIES Sample.convert_value
        Sample.normalize_video_id SampleRuns.link_row false false ∅ 2
        SampleRuns.loop_state
      = record_with_id Sample.ANNOTATION_CATEGORIES Sample.convert_value "clip_2"
          SampleRuns.link_row false ∅ 2 SampleRuns.loop_state
      /\ SampleRuns.parsed_id SampleRuns.link_row = Ok (Some "clip_2"))
  /\ (PredictionLoader._parse_row Sample.ANNOTATION_CATEGORIES Sample.convert_value
        Sample.normalize_video_id SampleRuns.plain_row false false ∅ 2
        SampleRuns.loop_state
      = record_with_id Sample.ANNOTATION_CATEGORIES Sample.convert_value "v7"
          SampleRuns.plain_row false ∅ 2 SampleRuns.loop_state
      /\ SampleRuns.parsed_id SampleRuns.plain_row = Ok (Some "v7"))
  /\ PredictionLoader._parse_row Sample.ANNOTATION_CATEGORIES Sample.convert_value
       Sample.normalize_video_id SampleRuns.empty_name_row false false ∅ 2
       SampleRuns.loop_state
     = (Ok None, SampleRuns.loop_state)
  /\ PredictionLoader._parse_row Sample.ANNOTATION_CATEGORIES Sample.convert_value
       Sample.normalize_video_id SampleRuns.anonymous_row false false ∅ 2
       SampleRuns.loop_state
     = (Ok None, SampleRuns.loop_state).
Proof.
  split; [split; [|vm_compute; reflexivity]|].
  { apply (proj1 (identifier_priority_and_skip Sample.ANNOTATION_CATEGORIES
                    Sample.convert_value Sample.normalize_video_id
                    SampleRuns.all_ids_row false false ∅ 2%nat SampleRuns.loop_state)
             (Some " alex_1 ")).
    vm_compute. reflexivity. }
  split; [split; [|vm_compute; reflexivity]|].
  { apply (proj1 (proj2 (identifier_priority_and_skip Sample.ANNOTATION_CATEGORIES
                           Sample.convert_value Sample.normalize_video_id
                           SampleRuns.link_row false false ∅ 2%nat
                           SampleRuns.loop_state))
             (Some " clip_2 ")); vm_compute; reflexivity. }
  split; [split; [|vm_compute; reflexivity]|].
  { apply (proj1 (proj2 (proj2
             (identifier_priority_and_skip Sample.ANNOTATION_CATEGORIES
                Sample.convert_value Sample.normalize_video_id SampleRuns.plain_row
                false false ∅ 2%nat SampleRuns.loop_state)))
             (Some " v7 ")); vm_compute; reflexivity. }
  split.
  { apply (proj1 (identifier_priority_and_skip Sample.ANNOTATION_CATEGORIES
                    Sample.convert_value Sample.normalize_video_id
                    SampleRuns.empty_name_row false false ∅ 2%nat
                    SampleRuns.loop_state)
             (Some "")).
    vm_compute. reflexivity. }
  apply (proj1 (proj2 (proj2 (proj2
           (identifier_priority_and_skip Sample.ANNOTATION_CATEGORIES
              Sample.convert_value Sample.normalize_video_id SampleRuns.anonymous_row
              false false ∅ 2%nat SampleRuns.loop_state)))));
    vm_compute; reflexivity.
Defined.

(** The record of the first row of [standard.csv]. *)
Lemma predictions_cover_all_categories_witness :
  dom (PredictionResult.predictions (SampleRuns.first_record "standard.csv"))
  = list_to_set Sample.ANNOTATION_CATEGORIES
  /\ exists row,
       row ∈ data_rows Sample.standard_file
       /\ forall c, c ∈ Sample.ANNOTATION_CATEGORIES ->
            exists text,
              read_cell (has_value_columns_of Sample.standard_file)
                (column_mapping_of Sample.standard_file) row c = Ok text
              /\ PredictionResult.predictions (SampleRuns.first_record "standard.csv") !! c
                 = Some (default 0 (Sample.convert_value text))
              /\ (Sample.convert_value text = None ->
                  PredictionResult.predictions (SampleRuns.first_record "standard.csv") !! c
                  = Some 0)
              /\ (no_column (has_value_columns_of Sample.standard_file)
                    (column_mapping_of Sample.standard_file) row c ->
                  text = ""
                  /\ PredictionResult.predictions
                       (SampleRuns.first_record "standard.csv") !! c = Some 0).
Proof.
  apply (predictions_cover_all_categories Sample.ANNOTATION_CATEGORIES
           Sample.convert_value Sample.normalize_video_id Sample.filesystem Sample.unreadable "model"
           "standard.csv" Sample.fresh (SampleRuns.loaded "standard.csv")
           (SampleRuns.state_after "standard.csv") Sample.standard_file
           (SampleRuns.first_record "standard.csv")).
  - reflexivity.
  - vm_compute. reflexivity.
  - reflexivity.
  - vm_compute. apply list_elem_of_here.
Defined.





(** The header of [tiktok.csv], with its lowercase-d column. *)
Lemma column_resolver_case_insensitive_witness :
  exists cm st' new,
    PredictionLoader._build_column_mapping Sample.ANNOTATION_CATEGORIES
      (columns_of Sample.tiktok_file) Sample.fresh = (Ok cm, st')
    /\ cm !! py_lower "Power_Dominance" = Some "1_Value1_Power_dominance_values"
    /\ logger st' = logger Sample.fresh ++ new
    /\ ColumnCaseMismatch "Power_Dominance" "1_Value1_Power_Dominance_values"
         "1_Value1_Power_dominance_values" ∈ new.
Proof.
  apply (proj2 (column_resolver_case_insensitive Sample.ANNOTATION_CATEGORIES)
           (columns_of Sample.tiktok_file) Sample.fresh).
  - apply (bool_decide_unpack _). vm_compute. exact I.
  - apply (bool_decide_unpack _). vm_compute. exact I.
  - apply (bool_decide_unpack _). vm_compute. exact I.
  - apply (proj1 (Forall_forall
             (fun c => category_key c = Some "power_dominance" ->
                       c = "1_Value1_Power_dominance_values") _)).
    repeat constructor; vm_compute; congruence.
Defined.

(** A cell [" present "] against a cell ["present"]. *)
Lemma conversion_ignores_surrounding_whitespace_witness :
  read_cell false ∅ SampleRuns.padded_row "Hedonism" = Ok "present"
  /\ PredictionLoader._parse_row Sample.ANNOTATION_CATEGORIES Sample.convert_value
       Sample.normalize_video_id SampleRuns.padded_row false false ∅ 2
       SampleRuns.loop_state
     = PredictionLoader._parse_row Sample.ANNOTATION_CATEGORIES Sample.convert_value
         Sample.normalize_video_id SampleRuns.trimmed_row false false ∅ 2
         SampleRuns.loop_state.
Proof.
  split; [reflexivity|].
  refine (proj1 (proj2
            (conversion_ignores_surrounding_whitespace Sample.ANNOTATION_CATEGORIES
               Sample.convert_value Sample.normalize_video_id SampleRuns.padded_row
               SampleRuns.trimmed_row _ _)) false false ∅ 2%nat SampleRuns.loop_state).
  - split; vm_compute; reflexivity.
  - vm_compute. reflexivity.
Defined.

(** ** The sample files, end to end *)

Example standard_file_records :
  (fun r => (PredictionResult.video_id r,
             PredictionResult.predictions r !! "Hedonism",
             PredictionResult.predictions r !! "Face",
             PredictionResult.predictions r !! "Tradition"))
    <$> PredictionSet.predictions (SampleRuns.loaded "standard.csv")
  = [ ("v1", Some 1, Some 0, Some 0);
      ("v2", Some 0, Some 2, Some 0);
      ("v3", Some 0, Some 0, Some 0) ].
Proof. vm_compute. reflexivity. Qed.

Example tiktok_file_records :
  (fun r => (PredictionResult.video_id r,
             PredictionResult.predictions r !! "Hedonism",
             PredictionResult.predictions r !! "Power_Dominance",
             PredictionResult.predictions r !! "Face"))
    <$> PredictionSet.predictions (SampleRuns.loaded "tiktok.csv")
  = [ ("@alexkay_video_678", Some 1, Some 2, Some 1);
      ("  ", Some 1, Some 0, Some 0) ].
Proof. vm_compute. reflexivity. Qed.

Example short_file_warnings :
  message <$> List.filter (fun r => match r with
                                    | UnexpectedValue _ _ _ | ParseErrors _
                                    | ParseErrorLine _ => true
                                    | _ => false
                                    end)
                (logger (SampleRuns.state_after "short.csv"))
  = [ "Unexpected value 'maybe' for category 'Hedonism' in row 3. Expected: '', 'absent', 'conflict', 'present', 'dominant', or numeric -1, 0, 1, 2";
      "Parse errors: 1";
      "  Row 3: 'NoneType' object has no attribute 'strip'" ].
Proof. vm_compute. reflexivity. Qed.

(** * The further properties on the sample files *)

(** The entry for [Face] in the Column Map of [tiktok.csv]. *)
Lemma column_map_entries_witness :
  exists before after,
    columns_of Sample.tiktok_file = before ++ "1_Value1_FACE_values" :: after
    /\ startswith "1_Value1_FACE_values" "1_Value1_" = true
    /\ endswith "1_Value1_FACE_values" "_values" = true
    /\ "face" = py_lower (slice 9 7 "1_Value1_FACE_values")
    /\ Forall (fun c => category_key c <> Some "face") after.
Proof.
  apply (proj1 (column_map_entries Sample.ANNOTATION_CATEGORIES
                  (columns_of Sample.tiktok_file) Sample.fresh
                  (column_mapping_of Sample.tiktok_file)
                  (SampleRuns.built Sample.tiktok_file).2 eq_refl)
           "face" "1_Value1_FACE_values").
  vm_compute. reflexivity.
Defined.

(** [tiktok.csv] has the header expected for [Hedonism]. *)
Lemma expected_header_resolves_witness :
  exists cm st' col new,
    PredictionLoader._build_column_mapping Sample.ANNOTATION_CATEGORIES
      (columns_of Sample.tiktok_file) Sample.fresh = (Ok cm, st')
    /\ cm !! py_lower "Hedonism" = Some col
    /\ col ∈ columns_of Sample.tiktok_file
    /\ category_key col = Some (py_lower "Hedonism")
    /\ logger st' = logger Sample.fresh ++ new
    /\ Forall (fun r => r <> NoColumnFound "Hedonism"
                        /\ forall expected actual,
                             r <> ColumnCaseMismatch "Hedonism" expected actual) new.
Proof.
  apply (expected_header_resolves Sample.ANNOTATION_CATEGORIES
           (columns_of Sample.tiktok_file) Sample.fresh "Hedonism").
  apply (bool_decide_unpack _). vm_compute. exact I.
Defined.

(** [standard.csv] has no header that contains ["_values"]. *)
Lemma standard_layout_maps_nothing_witness :
  PredictionLoader._build_column_mapping Sample.ANNOTATION_CATEGORIES
    (columns_of Sample.standard_file) Sample.fresh
  = (Ok ∅, append_log Sample.fresh (NoColumnFound <$> Sample.ANNOTATION_CATEGORIES)).
Proof.
  apply (standard_layout_maps_nothing Sample.ANNOTATION_CATEGORIES
           (columns_of Sample.standard_file) Sample.fresh).
  reflexivity.
Defined.

(** [short.csv]: the two records are the parses of the first and the third
    row. *)
Lemma records_follow_file_order_witness :
  exists kept,
    sublist kept (data_rows Sample.short_row_file)
    /\ Forall2 (record_of Sample.ANNOTATION_CATEGORIES Sample.convert_value
                  Sample.normalize_video_id
                  (has_value_columns_of Sample.short_row_file)
                  (column_mapping_of Sample.short_row_file)) kept
         (PredictionSet.predictions (SampleRuns.loaded "short.csv")).
Proof.
  apply (records_follow_file_order Sample.ANNOTATION_CATEGORIES Sample.convert_value
           Sample.normalize_video_id Sample.filesystem Sample.unreadable "model" "short.csv" Sample.fresh
           (SampleRuns.loaded "short.csv") (SampleRuns.state_after "short.csv")
           Sample.short_row_file).
  - vm_compute. reflexivity.
  - reflexivity.
Defined.

(** [short.csv]: two records, one diagnostic, no skipped row, three rows. *)
Lemma rows_are_accounted_for_witness :
  exists diagnostics earlier,
    (PredictionSet.total_count (SampleRuns.loaded "short.csv") + length diagnostics
     + length (List.filter (skipped Sample.normalize_video_id)
                 (data_rows Sample.short_row_file))
     = length (data_rows Sample.short_row_file))%nat
    /\ logger (SampleRuns.state_after "short.csv")
       = earlier
         ++ match diagnostics with
            | [] => []
            | _ => ParseErrors (length diagnostics)
                   :: (ParseErrorLine <$> take 5 diagnostics)
            end
         ++ [Loaded (PredictionSet.total_count (SampleRuns.loaded "short.csv"))
               "short.csv"].
Proof.
  apply (rows_are_accounted_for Sample.ANNOTATION_CATEGORIES Sample.convert_value
           Sample.normalize_video_id Sample.filesystem Sample.unreadable "model" "short.csv" Sample.fresh
           (SampleRuns.loaded "short.csv") (SampleRuns.state_after "short.csv")
           Sample.short_row_file).
  - vm_compute. reflexivity.
  - reflexivity.
Defined.

(** Loading [short.csv] a second time: the same result, and the warning
    about ["maybe"] once more. *)
Lemma load_forgets_history_witness :
  Sample.load "short.csv" (SampleRuns.state_after "short.csv")
  = ((PredictionLoader.load Sample.ANNOTATION_CATEGORIES Sample.convert_value
        Sample.normalize_video_id Sample.filesystem Sample.unreadable "model" "short.csv"
        never_loaded).1,
     prefix_log (logger (SampleRuns.state_after "short.csv"))
       (PredictionLoader.load Sample.ANNOTATION_CATEGORIES Sample.convert_value
          Sample.normalize_video_id Sample.filesystem Sample.unreadable "model" "short.csv"
          never_loaded).2)
  /\ unexpected_keys (logger (Sample.load "short.csv"
                                (SampleRuns.state_after "short.csv")).2)
     = [("Hedonism", "maybe"); ("Hedonism", "maybe")].
Proof.
  split.
  - apply (load_forgets_history Sample.ANNOTATION_CATEGORIES Sample.convert_value
             Sample.normalize_video_id Sample.filesystem Sample.unreadable "model" "short.csv"
             Sample.short_row_file (SampleRuns.state_after "short.csv")).
    reflexivity.
  - vm_compute. reflexivity.
Defined.

(** [short.csv]: the rows that gave the two returned records, the third
    of which holds ["maybe"] for [Hedonism], and the log that warns about
    it. *)
Lemma unexpected_value_is_warned_witness :
  exists f kept new,
    Sample.filesystem "short.csv" = Some f
    /\ sublist kept (data_rows f)
    /\ logger (SampleRuns.state_after "short.csv") = logger Sample.fresh ++ new
    /\ Forall2
         (fun row r =>
            record_of Sample.ANNOTATION_CATEGORIES Sample.convert_value
              Sample.normalize_video_id (has_value_columns_of f)
              (column_mapping_of f) row r
            /\ forall c text,
                 c ∈ Sample.ANNOTATION_CATEGORIES ->
                 read_cell (has_value_columns_of f) (column_mapping_of f) row c
                 = Ok text ->
                 Sample.convert_value text = None ->
                 text <> "" ->
                 (c, text) ∈ unexpected_keys new)
         kept (PredictionSet.predictions (SampleRuns.loaded "short.csv")).
Proof.
  apply (unexpected_value_is_warned Sample.ANNOTATION_CATEGORIES Sample.convert_value
           Sample.normalize_video_id Sample.filesystem Sample.unreadable "model"
           "short.csv" Sample.fresh (SampleRuns.loaded "short.csv")
           (SampleRuns.state_after "short.csv")).
  vm_compute. reflexivity.
Defined.

(** The records of [standard.csv]. *)
Lemma returned_records_are_well_formed_witness :
  PredictionSet.model_name (SampleRuns.loaded "standard.csv") = "model"
  /\ Forall (fun r => PredictionResult.video_id r <> ""
                      /\ PredictionResult.success r = true
                      /\ PredictionResult.error_message r = None
                      /\ PredictionResult.inference_time r = 0%Q)
       (PredictionSet.predictions (SampleRuns.loaded "standard.csv")).
Proof.
  apply (returned_records_are_well_formed Sample.ANNOTATION_CATEGORIES
           Sample.convert_value Sample.normalize_video_id Sample.filesystem Sample.unreadable "model"
           "standard.csv" Sample.fresh (SampleRuns.loaded "standard.csv")
           (SampleRuns.state_after "standard.csv")).
  vm_compute. reflexivity.
Defined.

(** The value 1 stored for [Hedonism] in the first record of
    [standard.csv]. *)
Lemma stored_values_come_from_normalizer_witness :
  "Hedonism" ∈ Sample.ANNOTATION_CATEGORIES
  /\ (1 = 0 \/ exists text, Sample.convert_value text = Some 1).
Proof.
  apply (stored_values_come_from_normalizer Sample.ANNOTATION_CATEGORIES
           Sample.convert_value Sample.normalize_video_id Sample.filesystem Sample.unreadable "model"
           "standard.csv" Sample.fresh (SampleRuns.loaded "standard.csv")
           (SampleRuns.state_after "standard.csv")
           (SampleRuns.first_record "standard.csv") "Hedonism" 1).
  - vm_compute. reflexivity.
  - vm_compute. apply list_elem_of_here.
  - vm_compute. reflexivity.
Defined.

(** The empty file [empty.csv]. *)
Lemma empty_file_loads_empty_witness :
  PredictionLoader.load Sample.ANNOTATION_CATEGORIES Sample.convert_value
    Sample.normalize_video_id SampleRuns.filesystem_with_empty Sample.unreadable "model" "empty.csv"
    Sample.fresh
  = (Ok {| PredictionSet.model_name := "model";
           PredictionSet.predictions := [];
           PredictionSet.total_count := 0;
           PredictionSet.success_count := 0;
           PredictionSet.failure_count := 0;
           PredictionSet.failed_video_ids := [] |},
     {| _logged_unexpected_values := Some ∅;
        logger := logger Sample.fresh
                  ++ [DetectedFormat false false]
                  ++ (NoColumnFound <$> Sample.ANNOTATION_CATEGORIES)
                  ++ [BuiltColumnMapping 0; Loaded 0 "empty.csv"] |}).
Proof.
  apply (empty_file_loads_empty Sample.ANNOTATION_CATEGORIES Sample.convert_value
           Sample.normalize_video_id SampleRuns.filesystem_with_empty Sample.unreadable "model"
           "empty.csv" SampleRuns.empty_file Sample.fresh); reflexivity.
Defined.

